(** * UsersService: a shallow embedding of [src/services/UsersService.ts]

    The service talks to two external resources, a Firestore collection of
    user documents and a Redis cache, and to a handful of helpers of the
    repository ([encryptPassword], [comparePasswords], [formatUserData],
    [generateToken], [firestoreTimestamp.now]).  The resources are modelled
    as an explicit [world] threaded through a small state-and-exception
    monad; every network call is appended to a [trace], so that statements
    such as "no store read" or "the cache delete comes last" can be read off
    the trace.  The helpers, whose code is outside the service file, are the
    fields of the class [Collaborators], as are [JSON.parse] and
    [JSON.stringify].

    What is modelled of the resources: the collection is a finite map from
    document id to data and accepts every id; a query lists the matching
    documents in the order of the map; [update] replaces the top-level
    fields it is given and is rejected for a missing document; the cache is
    a finite map from key to text (with the [EX] seconds it was written
    with) and does not age during a call.  Faults of the store or of the
    cache are not modelled.  The language is modelled as it is: a missing
    field reads as [undefined], a later field of an object literal
    overrides an earlier one, [if (s)] is false for the empty string, and
    [JSON.parse] throws on malformed text.

    [getActivityFeed] reads three other collections and is left out. *)

From Stdlib Require Import ZArith.
From stdpp Require Import gmap strings list fin_maps.

Local Open Scope Z_scope.
Local Open Scope string_scope.
Local Open Scope list_scope.

(** ** JavaScript values and objects *)

Inductive value : Type :=
| VUndef
| VStr (s : string)
| VNum (z : Z)
| VBool (b : bool)
| VTime (t : Z).

#[global] Instance value_eq_dec : EqDecision value.
Proof. solve_decision. Defined.

(** A plain object: field name to value. *)
Abbreviation obj := (gmap string value).

(** [o.k]; a missing field reads as [undefined]. *)
Definition get (o : obj) (k : string) : value := default VUndef (o !! k).

(** [{ ...a, ...b }]: the fields of [b] win. *)
Definition spread (a b : obj) : obj := b ∪ a.

(** [if (s)] on a [string | null]: [null] and the empty string are falsy. *)
Definition truthy (s : option string) : bool :=
  match s with
  | Some s => negb (String.eqb s "")
  | None => false
  end.

(** A JSON value, as [JSON.parse] produces it; a number keeps its text. *)
#[local] Set Warnings "-register-all".
Inductive json : Type :=
| JNull
| JBool (b : bool)
| JNum (literal : string)
| JStr (s : string)
| JArr (items : list json)
| JObj (members : list (string * json)).

(** ** Collaborators *)

Class Collaborators := {
  (** [JSON.parse]; [None] when it throws a [SyntaxError] *)
  JSON_parse : string -> option json;
  (** [JSON.stringify] on the array of listed users *)
  JSON_stringify : list obj -> string;
  (** [utils/password] *)
  encryptPassword : value -> string;
  comparePasswords : string -> value -> bool;
  (** [utils/formatData]; the argument is [doc.data()], [None] for [undefined] *)
  formatUserData : option obj -> obj;
  (** [utils/jwt] *)
  generateToken : string -> value -> string;
  (** the [n]-th reading of [firestoreTimestamp.now()] *)
  firestoreTimestamp_now : nat -> Z;
  (** the [n]-th identifier handed out by [users.doc()] *)
  auto_id : nat -> string;
}.

(** ** The world: store, cache, and the calls made so far *)

Inductive event : Type :=
| StoreWhere (field : string) (v : value)      (* users.where(field,'==',v).get() *)
| StoreGetAll                                  (* users.get() *)
| StoreGet (id : string)                       (* users.doc(id).get() *)
| StoreSet (id : string) (d : obj)             (* users.doc(id).set(d) *)
| StoreUpdate (id : string) (fields : obj)     (* users.doc(id).update(fields) *)
| StoreDelete (id : string)                    (* users.doc(id).delete() *)
| CacheGet (key : string)                      (* redisClient.get(key) *)
| CacheSet (key : string) (v : string) (ex : Z)(* redisClient.set(key, v, {EX: ex}) *)
| CacheDel (key : string).                     (* redisClient.del(key) *)

#[global] Instance event_eq_dec : EqDecision event.
Proof. solve_decision. Defined.

Definition is_store_read (e : event) : bool :=
  match e with
  | StoreWhere _ _ | StoreGetAll | StoreGet _ => true
  | _ => false
  end.

Definition is_store_write (e : event) : bool :=
  match e with
  | StoreSet _ _ | StoreUpdate _ _ | StoreDelete _ => true
  | _ => false
  end.

Definition is_cache_op (e : event) : bool :=
  match e with
  | CacheGet _ | CacheSet _ _ _ | CacheDel _ => true
  | _ => false
  end.

Record world : Type := World {
  db_users : gmap string obj;            (* the users collection: id to data *)
  redis : gmap string (string * Z);      (* key to (value, EX seconds) *)
  clock_reads : nat;                     (* readings of the timestamp source *)
  ids_issued : nat;                      (* identifiers handed out by doc() *)
  trace : list event;                    (* calls made, oldest first *)
}.

Inductive error : Type :=
| SyntaxError          (* JSON.parse on malformed text *)
| NotFoundError.       (* update of a document that does not exist *)

Inductive outcome (A : Type) : Type :=
| Ok (a : A)
| Thrown (e : error).
Arguments Ok {A} a.
Arguments Thrown {A} e.

(** An asynchronous method, awaited step by step. *)
Definition M (A : Type) : Type := world -> outcome A * world.

Definition ret {A} (a : A) : M A := fun w => (Ok a, w).

Definition bind {A B} (m : M A) (k : A -> M B) : M B :=
  fun w =>
    match m w with
    | (Ok a, w') => k a w'
    | (Thrown e, w') => (Thrown e, w')
    end.

Definition throw {A} (e : error) : M A := fun w => (Thrown e, w).

Declare Scope svc_scope.
Delimit Scope svc_scope with svc.
Notation "x <- m ;; k" := (bind m (fun x => k))
  (at level 100, m at next level, right associativity) : svc_scope.
Notation "m ;;; k" := (bind m (fun _ => k))
  (at level 100, right associativity) : svc_scope.

Definition log (e : event) (w : world) : world :=
  World (db_users w) (redis w) (clock_reads w) (ids_issued w) (trace w ++ [e]).

(** *** The document store *)

Definition matching (field : string) (v : value) (docs : gmap string obj)
  : list (string * obj) :=
  filter (fun p => (snd p) !! field = Some v) (map_to_list docs).

(** [users.where(field, '==', v).get()]: the documents of the snapshot. *)
Definition users_where (field : string) (v : value) : M (list (string * obj)) :=
  fun w => (Ok (matching field v (db_users w)), log (StoreWhere field v) w).

(** [users.get()] *)
Definition users_get : M (list (string * obj)) :=
  fun w => (Ok (map_to_list (db_users w)), log StoreGetAll w).

(** [users.doc(id).get()]: [Some d] when the document exists ([data()] is
    [d]), [None] otherwise ([exists] is false and [data()] is [undefined]). *)
Definition doc_get (id : string) : M (option obj) :=
  fun w => (Ok (db_users w !! id), log (StoreGet id) w).

(** [users.doc(id).set(d)] *)
Definition doc_set (id : string) (d : obj) : M unit :=
  fun w => (Ok tt,
            log (StoreSet id d)
              (World (<[id := d]> (db_users w)) (redis w) (clock_reads w)
                     (ids_issued w) (trace w))).

(** [users.doc(id).update(fields)]: the given fields replace those of the
    document; the call is rejected when the document does not exist. *)
Definition doc_update (id : string) (fields : obj) : M unit :=
  fun w =>
    match db_users w !! id with
    | Some d =>
        (Ok tt,
         log (StoreUpdate id fields)
           (World (<[id := spread d fields]> (db_users w)) (redis w)
                  (clock_reads w) (ids_issued w) (trace w)))
    | None => (Thrown NotFoundError, log (StoreUpdate id fields) w)
    end.

(** [users.doc(id).delete()] *)
Definition doc_delete (id : string) : M unit :=
  fun w => (Ok tt,
            log (StoreDelete id)
              (World (delete id (db_users w)) (redis w) (clock_reads w)
                     (ids_issued w) (trace w))).

(** *** The cache *)

Definition redis_get (key : string) : M (option string) :=
  fun w => (Ok (fst <$> redis w !! key), log (CacheGet key) w).

Definition redis_set (key v : string) (ex : Z) : M unit :=
  fun w => (Ok tt,
            log (CacheSet key v ex)
              (World (db_users w) (<[key := (v, ex)]> (redis w)) (clock_reads w)
                     (ids_issued w) (trace w))).

Definition redis_del (key : string) : M unit :=
  fun w => (Ok tt,
            log (CacheDel key)
              (World (db_users w) (delete key (redis w)) (clock_reads w)
                     (ids_issued w) (trace w))).

(** ** The service *)

(** The [data] member of a response body. *)
Inductive payload : Type :=
| DParsed (j : json)                        (* what JSON.parse returned *)
| DUsers (users : list obj)                 (* an array of user objects *)
| DUser (user : obj)                        (* one user object *)
| DLogin (user : obj) (token : string).     (* { user: {...}, token } *)

Record IResBody : Type := ResBody {
  status : Z;
  message : string;
  data : option payload;
}.

(** The status and the message of a returned body. *)
Definition status_of (o : outcome IResBody) : option Z :=
  match o with Ok r => Some (status r) | Thrown _ => None end.

Definition message_of (o : outcome IResBody) : option string :=
  match o with Ok r => Some (message r) | Thrown _ => None end.

Section Service.
Context `{C : Collaborators}.

(** [users.doc()]: a reference with a generated identifier; no network call. *)
Definition users_doc : M string :=
  fun w => (Ok (auto_id (ids_issued w)),
            World (db_users w) (redis w) (clock_reads w) (S (ids_issued w)) (trace w)).

(** [firestoreTimestamp.now()] *)
Definition now : M value :=
  fun w => (Ok (VTime (firestoreTimestamp_now (clock_reads w))),
            World (db_users w) (redis w) (S (clock_reads w)) (ids_issued w) (trace w)).

(** [JSON.parse(s)] *)
Definition parse (s : string) : M json :=
  match JSON_parse s with
  | Some j => ret j
  | None => throw SyntaxError
  end.

(** [{ id: id, ...formattedUser }] *)
Definition with_id (id : string) (formattedUser : obj) : obj :=
  spread {[ "id" := VStr id ]} formattedUser.

Definition createUser (userData : obj) : M IResBody :=
  (usersQuerySnapshot <- users_where "email" (get userData "email") ;;
   match usersQuerySnapshot with
   | [] =>
       userRef <- users_doc ;;
       let password := VStr (encryptPassword (get userData "password")) in
       createdAt <- now ;;
       updatedAt <- now ;;
       doc_set userRef
         (<["updatedAt" := updatedAt]>
            (<["createdAt" := createdAt]>
               (<["role" := VStr "member"]>
                  (<["password" := password]> userData)))) ;;;
       ret (ResBody 201 "User created successfully!" None)
   | _ :: _ => ret (ResBody 409 "User already exists" None)
   end)%svc.

(** The [for ... of] loop of [getUsers], pushing onto [users]. *)
Fixpoint push_users (docs : list (string * obj)) (users : list obj) : list obj :=
  match docs with
  | [] => users
  | doc :: rest =>
      let formattedUser := formatUserData (Some (snd doc)) in
      push_users rest (users ++ [with_id (fst doc) formattedUser])
  end.

Definition getUsers : M IResBody :=
  (let cacheKey := "users" in
   cachedUsers <- redis_get cacheKey ;;
   if truthy cachedUsers then
     (* cachedUsers is a non-empty string on this branch *)
     users <- parse (default "" cachedUsers) ;;
     ret (ResBody 200 "Users retrieved successfully!" (Some (DParsed users)))
   else
     docs <- users_get ;;
     let users := push_users docs [] in
     redis_set cacheKey (JSON_stringify users) 3600 ;;;
     ret (ResBody 200 "Users retrieved successfully!" (Some (DUsers users))))%svc.

Definition login (email password : string) : M IResBody :=
  (usersQuerySnapshot <- users_where "email" (VStr email) ;;
   match usersQuerySnapshot with
   | [] => ret (ResBody 401 "Unauthorized" None)
   | doc0 :: _ =>
       let isPasswordValid := comparePasswords password (get (snd doc0) "password") in
       if isPasswordValid then
         let formattedUser := formatUserData (Some (snd doc0)) in
         ret (ResBody 200 "User login successfully!"
                (Some (DLogin formattedUser
                         (generateToken (fst doc0) (get formattedUser "role")))))
       else ret (ResBody 401 "Unauthorized!" None)
   end)%svc.

Definition getUserById (userId : string) : M IResBody :=
  (userDoc <- doc_get userId ;;
   let formattedUser := formatUserData userDoc in
   ret (ResBody 200 "User retrieved successfully!"
          (Some (DUser (with_id userId formattedUser)))))%svc.

Definition updateUserById (userId : string) (userData : obj) : M IResBody :=
  (userDoc <- doc_get userId ;;
   match userDoc with
   | None => ret (ResBody 404 "User not found" None)
   | Some _ =>
       updatedAt <- now ;;
       doc_update userId (<["updatedAt" := updatedAt]> userData) ;;;
       updatedUser <- doc_get userId ;;
       let formattedUser := formatUserData updatedUser in
       ret (ResBody 200 "User updated successfully!"
              (Some (DUser (with_id userId formattedUser))))
   end)%svc.

Definition deleteUserById (userId : string) : M IResBody :=
  (userDoc <- doc_get userId ;;
   match userDoc with
   | None => ret (ResBody 404 "User not found" None)
   | Some _ =>
       doc_delete userId ;;;
       redis_del "users" ;;;
       ret (ResBody 200 "User deleted successfully!" None)
   end)%svc.

Definition changePassword (userId newPassword : string) : M IResBody :=
  (userDoc <- doc_get userId ;;
   match userDoc with
   | None => ret (ResBody 404 "User not found" None)
   | Some _ =>
       let hashedPassword := encryptPassword (VStr newPassword) in
       updatedAt <- now ;;
       doc_update userId
         (<["updatedAt" := updatedAt]> {[ "password" := VStr hashedPassword ]}) ;;;
       ret (ResBody 200 "Password changed successfully!" None)
   end)%svc.

End Service.

(** ** Reading a run *)

(** The calls made between two worlds of one run, oldest first. *)
Definition calls_since (before : world) (after : world) : list event :=
  drop (length (trace before)) (trace after).

Definition no_store_read (evs : list event) : Prop :=
  forallb (fun e => negb (is_store_read e)) evs = true.

Definition no_store_write (evs : list event) : Prop :=
  forallb (fun e => negb (is_store_write e)) evs = true.

Definition no_cache_op (evs : list event) : Prop :=
  forallb (fun e => negb (is_cache_op e)) evs = true.

Section Derived.
Context `{C : Collaborators}.

(** The document written by [createUser]. *)
Definition new_user (userData : obj) (createdAt updatedAt : Z) : obj :=
  <["updatedAt" := VTime updatedAt]>
    (<["createdAt" := VTime createdAt]>
       (<["role" := VStr "member"]>
          (<["password" := VStr (encryptPassword (get userData "password"))]> userData))).

(** The response [login] builds from the documents its query returned. *)
Definition login_response (password : string) (docs : list (string * obj)) : IResBody :=
  match docs with
  | [] => ResBody 401 "Unauthorized" None
  | doc0 :: _ =>
      if comparePasswords password (get (snd doc0) "password") then
        let formattedUser := formatUserData (Some (snd doc0)) in
        ResBody 200 "User login successfully!"
          (Some (DLogin formattedUser
                   (generateToken (fst doc0) (get formattedUser "role"))))
      else ResBody 401 "Unauthorized!" None
  end.

End Derived.

(** ** Statements of the specification, as written *)

Section AsStated.
Context `{C : Collaborators}.

(** "If the cache read of the key returns a value, the operation
    deserializes that value and returns it with status 200 without
    performing any store read." *)
Definition cache_hit_as_stated (w : world) : Prop :=
  forall v : string,
    fst <$> redis w !! "users" = Some v ->
    exists (j : json) (r : IResBody) (w' : world),
      JSON_parse v = Some j /\
      getUsers w = (Ok r, w') /\
      status r = 200 /\
      data r = Some (DParsed j) /\
      no_store_read (calls_since w w').

(** "For every login call whose email matches a stored account and whose
    claimed password verifies against that account's stored hash, the call
    returns status 200 with the account's formatted profile and a token
    generated from exactly that account's document id and role." *)
Definition login_any_match_as_stated (w : world) (email password : string) : Prop :=
  forall (id : string) (d : obj),
    db_users w !! id = Some d ->
    d !! "email" = Some (VStr email) ->
    comparePasswords password (get d "password") = true ->
    exists (r : IResBody) (w' : world),
      login email password w = (Ok r, w') /\
      status r = 200 /\
      data r = Some (DLogin (formatUserData (Some d))
                       (generateToken id (get d "role"))).

(** "Both calls return the identical status and the identical message text." *)
Definition same_refusal (r1 r2 : IResBody) : Prop :=
  status r1 = status r2 /\ message r1 = message r2.

End AsStated.

(** ** A concrete set of collaborators and worlds, for examples

    Stand-ins for the helpers, just enough to run the service: a hash that
    prefixes the password, a projection that drops the password field, a
    token that concatenates id and role, a clock that advances by one at
    each reading, and a JSON codec that knows the empty array only. *)

Module Demo.

Definition demo_hash (v : value) : string :=
  match v with
  | VStr s => "$2b$" +:+ s
  | _ => "$2b$"
  end.

Definition demo_role (v : value) : string :=
  match v with
  | VStr s => s
  | _ => ""
  end.

#[export] Instance demo : Collaborators := {|
  JSON_parse := fun s => if String.eqb s "[]" then Some (JArr []) else None;
  JSON_stringify := fun users => match users with [] => "[]" | _ => "[...]" end;
  encryptPassword := demo_hash;
  comparePasswords := fun p h => bool_decide (h = VStr (demo_hash (VStr p)));
  formatUserData := fun d => delete "password" (default ∅ d);
  generateToken := fun id role => id +:+ ":" +:+ demo_role role;
  firestoreTimestamp_now := fun n => 1700000000 + Z.of_nat n;
  auto_id := fun n => "auto" +:+ String.concat "" (replicate n "'");
|}.

Definition alice : obj :=
  {[ "email" := VStr "alice@example.org";
     "password" := VStr "$2b$wonderland";
     "role" := VStr "admin";
     "name" := VStr "Alice" ]}.

Definition bob : obj :=
  {[ "email" := VStr "bob@example.org";
     "password" := VStr "$2b$builder";
     "role" := VStr "member" ]}.

(** A sign-up form. *)
Definition carol_form : obj :=
  {[ "email" := VStr "carol@example.org";
     "password" := VStr "s3cret";
     "name" := VStr "Carol" ]}.

(** A second account under Alice's email, with another password. *)
Definition alice_twin : obj :=
  {[ "email" := VStr "alice@example.org";
     "password" := VStr "$2b$looking-glass";
     "role" := VStr "member" ]}.

Definition two_users : gmap string obj := {[ "u1" := alice; "u2" := bob ]}.

Definition twins : gmap string obj := {[ "u1" := alice; "u3" := alice_twin ]}.

(** Two users in the store, nothing cached. *)
Definition w_cold : world := World two_users ∅ 0 0 [].

(** The cache key holds the empty string. *)
Definition w_blank : world := World two_users {[ "users" := ("", 3600) ]} 0 0 [].

(** The cache key holds a listing. *)
Definition w_warm : world := World two_users {[ "users" := ("[]", 3600) ]} 0 0 [].

(** Two accounts share one email. *)
Definition w_twins : world := World twins ∅ 0 0 [].

End Demo.

(** Whether a run ended in an exception. *)
Definition is_thrown {A : Type} (o : outcome A) : bool :=
  match o with Ok _ => false | Thrown _ => true end.

(** ** The activity feed

    [getActivityFeed] reads the three other collections of [this.db] and
    neither the users collection nor the cache, so it runs on a state of
    its own: the three collections and the queries made on them. *)

Inductive feed_event : Type :=
| PostsWhere (field : string) (v : value)      (* posts.where(field,'==',v).get() *)
| CommentsWhere (field : string) (v : value)   (* comments.where(field,'==',v).get() *)
| VotesWhere (field : string) (v : value).     (* votes.where(field,'==',v).get() *)

Record activity : Type := Activity {
  db_posts : gmap string obj;
  db_comments : gmap string obj;
  db_votes : gmap string obj;
  feed_trace : list feed_event;                (* queries made, oldest first *)
}.

(** The [data] member of the feed response. *)
Record feed : Type := Feed {
  posts : list obj;
  comments : list obj;
  votes : list obj;
}.

Record FeedResBody : Type := FeedBody {
  feed_status : Z;
  feed_message : string;
  feed_data : feed;
}.

Definition feed_log (e : feed_event) (a : activity) : activity :=
  Activity (db_posts a) (db_comments a) (db_votes a) (feed_trace a ++ [e]).

(** [doc => ({ id: doc.id, ...doc.data() })] *)
Definition feed_item (doc : string * obj) : obj := with_id (fst doc) (snd doc).

Definition getActivityFeed (userId : string) (a : activity) : FeedResBody * activity :=
  let posts := matching "userId" (VStr userId) (db_posts a) in
  let a := feed_log (PostsWhere "userId" (VStr userId)) a in
  let comments := matching "userId" (VStr userId) (db_comments a) in
  let a := feed_log (CommentsWhere "userId" (VStr userId)) a in
  let votes := matching "userId" (VStr userId) (db_votes a) in
  let a := feed_log (VotesWhere "userId" (VStr userId)) a in
  (FeedBody 200 "User activity retrieved successfully!"
     (Feed (map feed_item posts) (map feed_item comments) (map feed_item votes)),
   a).

(** ** More worlds for examples *)

Module DemoMore.
Import Demo.

(** No account yet, nothing cached. *)
Definition w_empty : world := World ∅ ∅ 0 0 [].

(** A cached text that is not JSON. *)
Definition w_garbled : world := World two_users {[ "users" := ("<html>", 3600) ]} 0 0 [].

(** An update form that takes Alice's email and sets a password and a role. *)
Definition takeover_form : obj :=
  {[ "email" := VStr "alice@example.org";
     "password" := VStr "letmein";
     "role" := VStr "admin" ]}.

Definition post1 : obj := {[ "userId" := VStr "u1"; "title" := VStr "Hello" ]}.
Definition post2 : obj := {[ "userId" := VStr "u2"; "title" := VStr "World" ]}.
(** A post whose data has an [id] field of its own. *)
Definition post3 : obj :=
  {[ "userId" := VStr "u1"; "title" := VStr "Again"; "id" := VStr "imported-7" ]}.
Definition comment1 : obj := {[ "userId" := VStr "u1"; "text" := VStr "Nice" ]}.

Definition a_some : activity :=
  Activity {[ "p1" := post1; "p2" := post2; "p3" := post3 ]}
           {[ "c1" := comment1 ]} ∅ [].

End DemoMore.

(** ** Two more statements of the specification, as written *)

Section AsStatedMore.
Context `{C : Collaborators}.

(** "It persists a new record whose password field is the hash of the
    supplied plaintext (never the plaintext itself), whose role is
    'member', and whose createdAt and updatedAt are both set to the
    creation time, and returns status 201." *)
Definition createUser_record_as_stated (userData : obj) (w : world) : Prop :=
  exists (id : string) (d : obj) (creation : Z) (w' : world),
    createUser userData w =
      (Ok (ResBody 201 "User created successfully!" None), w') /\
    In (StoreSet id d) (calls_since w w') /\
    db_users w !! id = None /\
    d !! "password" = Some (VStr (encryptPassword (get userData "password"))) /\
    d !! "password" <> userData !! "password" /\
    d !! "role" = Some (VStr "member") /\
    d !! "createdAt" = Some (VTime creation) /\
    d !! "updatedAt" = Some (VTime creation).

(** "It returns status 200 with a data payload containing the supplied id." *)
Definition getUserById_as_stated (userId : string) (w : world) : Prop :=
  exists (payload : obj) (w' : world),
    getUserById userId w =
      (Ok (ResBody 200 "User retrieved successfully!" (Some (DUser payload))), w') /\
    payload !! "id" = Some (VStr userId).

End AsStatedMore.

(** ** Other collaborators for examples *)

Module DemoEnvs.
Import Demo.

(** As [demo], but the hash returns the password it is given and the
    clock stands still. *)
Definition echo_hash : Collaborators := {|
  JSON_parse := fun s => if String.eqb s "[]" then Some (JArr []) else None;
  JSON_stringify := fun users => match users with [] => "[]" | _ => "[...]" end;
  encryptPassword := demo_role;
  comparePasswords := fun p h => bool_decide (h = VStr p);
  formatUserData := fun d => delete "password" (default ∅ d);
  generateToken := fun id role => id +:+ ":" +:+ demo_role role;
  firestoreTimestamp_now := fun _ => 1700000000;
  auto_id := fun n => "auto" +:+ String.concat "" (replicate n "'");
|}.

(** As [demo], but [users.doc()] hands out an identifier that is in use
    and the clock stands still. *)
Definition one_ref : Collaborators := {|
  JSON_parse := fun s => if String.eqb s "[]" then Some (JArr []) else None;
  JSON_stringify := fun users => match users with [] => "[]" | _ => "[...]" end;
  encryptPassword := demo_hash;
  comparePasswords := fun p h => bool_decide (h = VStr (demo_hash (VStr p)));
  formatUserData := fun d => delete "password" (default ∅ d);
  generateToken := fun id role => id +:+ ":" +:+ demo_role role;
  firestoreTimestamp_now := fun _ => 1700000000;
  auto_id := fun _ => "u1";
|}.

(** A sign-up form that brings an [id] field of its own. *)
Definition imported_form : obj :=
  {[ "email" := VStr "dave@example.org";
     "password" := VStr "pa55";
     "id" := VStr "inner" ]}.

(** The world after Dave has signed up with that form. *)
Definition w_imported : world := snd (createUser imported_form w_cold).

End DemoEnvs.

(** ** What each method does, branch by branch *)

Section Runs.
Context `{C : Collaborators}.

Lemma calls_since_app (w w' : world) (evs : list event) :
  trace w' = trace w ++ evs -> calls_since w w' = evs.
Proof.
  intros H. unfold calls_since. rewrite H. apply drop_app_length.
Qed.

Lemma push_users_acc (docs : list (string * obj)) (users : list obj) :
  push_users docs users =
  users ++ map (fun doc => with_id (fst doc) (formatUserData (Some (snd doc)))) docs.
Proof.
  revert users. induction docs as [|doc rest IH]; intros users; simpl.
  - by rewrite app_nil_r.
  - rewrite IH. by rewrite <- app_assoc.
Qed.

Lemma createUser_conflict (userData : obj) (w : world) :
  matching "email" (get userData "email") (db_users w) <> [] ->
  createUser userData w =
  (Ok (ResBody 409 "User already exists" None),
   log (StoreWhere "email" (get userData "email")) w).
Proof.
  intros Hne. unfold createUser, bind, users_where.
  destruct (matching "email" (get userData "email") (db_users w)); [done|].
  reflexivity.
Qed.

Lemma createUser_fresh (userData : obj) (w : world) :
  matching "email" (get userData "email") (db_users w) = [] ->
  let id := auto_id (ids_issued w) in
  let d := new_user userData (firestoreTimestamp_now (clock_reads w))
                             (firestoreTimestamp_now (S (clock_reads w))) in
  createUser userData w =
  (Ok (ResBody 201 "User created successfully!" None),
   World (<[id := d]> (db_users w)) (redis w) (S (S (clock_reads w)))
         (S (ids_issued w))
         (trace w ++ [StoreWhere "email" (get userData "email"); StoreSet id d])).
Proof.
  intros He. unfold createUser, bind, users_where. rewrite He. cbn.
  unfold log. cbn. by rewrite <- app_assoc.
Qed.

Lemma getUsers_hit (w : world) (v : string) (ex : Z) (j : json) :
  redis w !! "users" = Some (v, ex) -> v <> "" -> JSON_parse v = Some j ->
  getUsers w =
  (Ok (ResBody 200 "Users retrieved successfully!" (Some (DParsed j))),
   log (CacheGet "users") w).
Proof.
  intros Hc Hv Hj. unfold getUsers, bind, redis_get. rewrite Hc. cbn.
  destruct (String.eqb_spec v ""); [done|]. cbn.
  unfold parse. by rewrite Hj.
Qed.

Lemma getUsers_malformed (w : world) (v : string) (ex : Z) :
  redis w !! "users" = Some (v, ex) -> v <> "" -> JSON_parse v = None ->
  getUsers w = (Thrown SyntaxError, log (CacheGet "users") w).
Proof.
  intros Hc Hv Hj. unfold getUsers, bind, redis_get. rewrite Hc. cbn.
  destruct (String.eqb_spec v ""); [done|]. cbn.
  unfold parse. by rewrite Hj.
Qed.

Lemma getUsers_miss (w : world) :
  truthy (fst <$> redis w !! "users") = false ->
  let users := push_users (map_to_list (db_users w)) [] in
  getUsers w =
  (Ok (ResBody 200 "Users retrieved successfully!" (Some (DUsers users))),
   World (db_users w) (<["users" := (JSON_stringify users, 3600)]> (redis w))
         (clock_reads w) (ids_issued w)
         (trace w ++ [CacheGet "users"; StoreGetAll;
                      CacheSet "users" (JSON_stringify users) 3600])).
Proof.
  intros Hf. unfold getUsers, bind, redis_get. rewrite Hf. cbn.
  unfold log. cbn. by rewrite <- !app_assoc.
Qed.

Lemma login_run (email password : string) (w : world) :
  login email password w =
  (Ok (login_response password (matching "email" (VStr email) (db_users w))),
   log (StoreWhere "email" (VStr email)) w).
Proof.
  unfold login, bind, users_where, login_response.
  destruct (matching "email" (VStr email) (db_users w)) as [|doc0 rest]; [done|].
  by destruct (comparePasswords password (get doc0.2 "password")).
Qed.

Lemma getUserById_run (userId : string) (w : world) :
  getUserById userId w =
  (Ok (ResBody 200 "User retrieved successfully!"
         (Some (DUser (with_id userId (formatUserData (db_users w !! userId)))))),
   log (StoreGet userId) w).
Proof. reflexivity. Qed.

Lemma updateUserById_missing (userId : string) (userData : obj) (w : world) :
  db_users w !! userId = None ->
  updateUserById userId userData w =
  (Ok (ResBody 404 "User not found" None), log (StoreGet userId) w).
Proof. intros H. unfold updateUserById, bind, doc_get. by rewrite H. Qed.

Lemma updateUserById_found (userId : string) (userData d : obj) (w : world) :
  db_users w !! userId = Some d ->
  let fields := <["updatedAt" := VTime (firestoreTimestamp_now (clock_reads w))]> userData in
  let d' := spread d fields in
  updateUserById userId userData w =
  (Ok (ResBody 200 "User updated successfully!"
         (Some (DUser (with_id userId (formatUserData (Some d')))))),
   World (<[userId := d']> (db_users w)) (redis w) (S (clock_reads w)) (ids_issued w)
         (trace w ++ [StoreGet userId; StoreUpdate userId fields; StoreGet userId])).
Proof.
  intros H. unfold updateUserById, bind, doc_get. rewrite H. cbn.
  unfold doc_update. cbn. rewrite H. cbn. rewrite lookup_insert_eq.
  unfold log. cbn. by rewrite <- !app_assoc.
Qed.

Lemma deleteUserById_missing (userId : string) (w : world) :
  db_users w !! userId = None ->
  deleteUserById userId w =
  (Ok (ResBody 404 "User not found" None), log (StoreGet userId) w).
Proof. intros H. unfold deleteUserById, bind, doc_get. by rewrite H. Qed.

Lemma deleteUserById_found (userId : string) (d : obj) (w : world) :
  db_users w !! userId = Some d ->
  deleteUserById userId w =
  (Ok (ResBody 200 "User deleted successfully!" None),
   World (delete userId (db_users w)) (delete "users" (redis w))
         (clock_reads w) (ids_issued w)
         (trace w ++ [StoreGet userId; StoreDelete userId; CacheDel "users"])).
Proof.
  intros H. unfold deleteUserById, bind, doc_get. rewrite H. cbn.
  unfold log. cbn. by rewrite <- !app_assoc.
Qed.

Lemma changePassword_missing (userId newPassword : string) (w : world) :
  db_users w !! userId = None ->
  changePassword userId newPassword w =
  (Ok (ResBody 404 "User not found" None), log (StoreGet userId) w).
Proof. intros H. unfold changePassword, bind, doc_get. by rewrite H. Qed.

Lemma changePassword_found (userId newPassword : string) (d : obj) (w : world) :
  db_users w !! userId = Some d ->
  let fields : obj :=
    <["updatedAt" := VTime (firestoreTimestamp_now (clock_reads w))]>
      {[ "password" := VStr (encryptPassword (VStr newPassword)) ]} in
  changePassword userId newPassword w =
  (Ok (ResBody 200 "Password changed successfully!" None),
   World (<[userId := spread d fields]> (db_users w)) (redis w)
         (S (clock_reads w)) (ids_issued w)
         (trace w ++ [StoreGet userId; StoreUpdate userId fields])).
Proof.
  intros H. unfold changePassword, bind, doc_get. rewrite H. cbn.
  unfold doc_update. cbn. rewrite H. cbn.
  unfold log. cbn. by rewrite <- !app_assoc.
Qed.

End Runs.

(** ** The claims *)

Section Claims.
Context `{C : Collaborators}.

Local Ltac calls := apply calls_since_app; reflexivity.

Lemma calls_since_log (w : world) (e : event) : calls_since w (log e w) = [e].
Proof. calls. Qed.

(** Whatever the collaborators, an empty string under the cache key is
    handled as a miss. *)
Lemma getUsers_blank (w : world) (ex : Z) :
  redis w !! "users" = Some ("", ex) ->
  In StoreGetAll (calls_since w (getUsers w).2).
Proof.
  intros H. rewrite getUsers_miss by (by rewrite H). cbn.
  erewrite calls_since_app by reflexivity. cbn. tauto.
Qed.

(** C1 (as amended): when the cache read of the key ['users'] returns a
    non-empty text that [JSON.parse] accepts, [getUsers] returns the parsed
    value with status 200 and its only call is that cache read; when the
    cache read returns nothing, or the empty string, it reads every account
    from the store, builds the listing [{id, ...formatUserData(data)}] in
    the order of the snapshot, writes the serialized listing under the key
    with [EX: 3600], and returns the fresh listing with status 200. *)
Theorem getUsers_cache_aside (w : world) :
  (forall (v : string) (ex : Z) (j : json),
      redis w !! "users" = Some (v, ex) -> v <> "" -> JSON_parse v = Some j ->
      exists w',
        getUsers w =
          (Ok (ResBody 200 "Users retrieved successfully!" (Some (DParsed j))), w') /\
        calls_since w w' = [CacheGet "users"] /\
        db_users w' = db_users w /\ redis w' = redis w)
  /\
  (redis w !! "users" = None \/ (exists ex, redis w !! "users" = Some ("", ex)) ->
   let users :=
     map (fun doc => with_id (fst doc) (formatUserData (Some (snd doc))))
         (map_to_list (db_users w)) in
   exists w',
     getUsers w =
       (Ok (ResBody 200 "Users retrieved successfully!" (Some (DUsers users))), w') /\
     calls_since w w' =
       [CacheGet "users"; StoreGetAll; CacheSet "users" (JSON_stringify users) 3600] /\
     redis w' = <["users" := (JSON_stringify users, 3600)]> (redis w) /\
     db_users w' = db_users w).
Proof.
  split.
  - intros v ex j Hc Hv Hj. eexists. split; [by eapply getUsers_hit|].
    split; [apply calls_since_log | done].
  - intros Hmiss users.
    assert (Hf : truthy (fst <$> redis w !! "users") = false).
    { destruct Hmiss as [-> | [ex ->]]; reflexivity. }
    pose proof (getUsers_miss w Hf) as Hrun. cbn zeta in Hrun.
    rewrite push_users_acc in Hrun. cbn [app] in Hrun. fold users in Hrun.
    eexists. split; [exact Hrun|]. split; [calls | done].
Qed.

(** C2: when a document with the given id exists, [deleteUserById] deletes
    it from the store, then deletes the cache key ['users'] as its last
    call, and returns 200; when no such document exists it returns 404 and
    issues neither the store delete nor the cache delete. *)
Theorem deleteUserById_invalidates (userId : string) (w : world) :
  (is_Some (db_users w !! userId) ->
   exists w',
     deleteUserById userId w =
       (Ok (ResBody 200 "User deleted successfully!" None), w') /\
     calls_since w w' = [StoreGet userId; StoreDelete userId; CacheDel "users"] /\
     last (calls_since w w') = Some (CacheDel "users") /\
     db_users w' = delete userId (db_users w) /\
     redis w' = delete "users" (redis w))
  /\
  (db_users w !! userId = None ->
   exists w',
     deleteUserById userId w = (Ok (ResBody 404 "User not found" None), w') /\
     calls_since w w' = [StoreGet userId] /\
     db_users w' = db_users w /\
     redis w' = redis w).
Proof.
  split.
  - intros [d Hd]. eexists. split; [by eapply deleteUserById_found|].
    assert (Hcalls : forall w0 : world,
               trace w0 = trace w ++ [StoreGet userId; StoreDelete userId; CacheDel "users"] ->
               calls_since w w0 = [StoreGet userId; StoreDelete userId; CacheDel "users"])
      by (intros w0; apply calls_since_app).
    rewrite Hcalls by reflexivity. done.
  - intros Hd. eexists. split; [by apply deleteUserById_missing|].
    split; [apply calls_since_log | done].
Qed.

(** C3: a login for an email that no document carries and a login whose
    password fails verification against the first matching document are
    both answered with status 401, but with different message texts,
    ["Unauthorized"] and ["Unauthorized!"]: the two refusals are not
    identical. *)
Theorem login_refusals_differ
    (w1 w2 : world) (email1 password1 email2 password2 : string)
    (doc0 : string * obj) (rest : list (string * obj)) :
  matching "email" (VStr email1) (db_users w1) = [] ->
  matching "email" (VStr email2) (db_users w2) = doc0 :: rest ->
  comparePasswords password2 (get (snd doc0) "password") = false ->
  exists r1 r2 w1' w2',
    login email1 password1 w1 = (Ok r1, w1') /\
    login email2 password2 w2 = (Ok r2, w2') /\
    status r1 = 401 /\ status r2 = 401 /\
    message r1 = "Unauthorized" /\ message r2 = "Unauthorized!" /\
    ~ same_refusal r1 r2.
Proof.
  intros H1 H2 Hp. do 4 eexists.
  split; [apply login_run|]. split; [apply login_run|].
  rewrite H1, H2. cbn. rewrite Hp. cbn.
  repeat split. intros [_ Hm]. discriminate Hm.
Qed.

(** C4 (as amended): when the email query returns at least one document and
    the claimed password verifies against the stored hash of the first
    document returned, [login] returns 200 with that document's formatted
    profile and the token generated from that document's id and the
    formatted profile's role; the document is a stored account carrying
    the queried email, and the role is the stored one whenever formatting
    keeps the role field. *)
Theorem login_success
    (w : world) (email password : string)
    (doc0 : string * obj) (rest : list (string * obj)) :
  matching "email" (VStr email) (db_users w) = doc0 :: rest ->
  comparePasswords password (get (snd doc0) "password") = true ->
  let formattedUser := formatUserData (Some (snd doc0)) in
  exists w',
    login email password w =
      (Ok (ResBody 200 "User login successfully!"
             (Some (DLogin formattedUser
                      (generateToken (fst doc0) (get formattedUser "role"))))), w') /\
    db_users w !! fst doc0 = Some (snd doc0) /\
    snd doc0 !! "email" = Some (VStr email) /\
    (get formattedUser "role" = get (snd doc0) "role" ->
     generateToken (fst doc0) (get formattedUser "role") =
     generateToken (fst doc0) (get (snd doc0) "role")).
Proof.
  intros Hq Hp formattedUser. eexists. split.
  { rewrite login_run, Hq. cbn. rewrite Hp. reflexivity. }
  assert (Hin : doc0 ∈ matching "email" (VStr email) (db_users w))
    by (rewrite Hq; apply list_elem_of_here).
  unfold matching in Hin. apply list_elem_of_filter in Hin as [He Hin].
  destruct doc0 as [id d]. apply elem_of_map_to_list in Hin.
  repeat split; [done | done |]. by intros ->.
Qed.

(** A password that verifies against the second document of the query
    result, but not against the first, is refused. *)
Lemma login_second_match_refused
    (w : world) (email password : string)
    (doc0 doc1 : string * obj) (rest : list (string * obj)) :
  matching "email" (VStr email) (db_users w) = doc0 :: doc1 :: rest ->
  comparePasswords password (get (snd doc0) "password") = false ->
  comparePasswords password (get (snd doc1) "password") = true ->
  fst (login email password w) = Ok (ResBody 401 "Unauthorized!" None).
Proof.
  intros Hq H0 _. rewrite login_run, Hq. cbn. by rewrite H0.
Qed.

(** When only one stored account carries the email, that account is the
    one the query returns. *)
Lemma matching_sole (field : string) (v : value) (docs : gmap string obj)
    (id : string) (d : obj) :
  docs !! id = Some d -> d !! field = Some v ->
  (forall id' d', docs !! id' = Some d' -> d' !! field = Some v -> id' = id) ->
  exists rest, matching field v docs = (id, d) :: rest.
Proof.
  intros Hd Hv Huniq.
  assert (Hin : (id, d) ∈ matching field v docs).
  { unfold matching. apply list_elem_of_filter. split; [done|].
    by apply elem_of_map_to_list. }
  destruct (matching field v docs) as [|[id0 d0] rest] eqn:Hq.
  { by apply elem_of_nil in Hin. }
  assert (Hin0 : (id0, d0) ∈ matching field v docs)
    by (rewrite Hq; apply list_elem_of_here).
  unfold matching in Hin0. apply list_elem_of_filter in Hin0 as [Hv0 Hin0].
  apply elem_of_map_to_list in Hin0. cbn in Hv0.
  pose proof (Huniq id0 d0 Hin0 Hv0) as ->.
  exists rest. f_equal. f_equal. congruence.
Qed.

(** With a single stored account under the email, a password that verifies
    against it is accepted: the account is the one the query returns. *)
Lemma login_sole_account (w : world) (email password id : string) (d : obj) :
  db_users w !! id = Some d ->
  d !! "email" = Some (VStr email) ->
  (forall id' d', db_users w !! id' = Some d' ->
                  d' !! "email" = Some (VStr email) -> id' = id) ->
  comparePasswords password (get d "password") = true ->
  let formattedUser := formatUserData (Some d) in
  fst (login email password w) =
  Ok (ResBody 200 "User login successfully!"
        (Some (DLogin formattedUser (generateToken id (get formattedUser "role"))))).
Proof.
  intros Hd He Huniq Hp formattedUser.
  destruct (matching_sole "email" (VStr email) (db_users w) id d Hd He Huniq)
    as [rest Hq].
  rewrite login_run, Hq. cbn. by rewrite Hp.
Qed.


(** C6: for an id under which no document exists, [updateUserById],
    [deleteUserById] and [changePassword] each return 404; their only call
    is the read of that id, and the store is left as it was. *)
Theorem missing_id_not_found
    (userId newPassword : string) (userData : obj) (w : world) :
  db_users w !! userId = None ->
  let not_found (run : outcome IResBody * world) :=
    fst run = Ok (ResBody 404 "User not found" None) /\
    calls_since w (snd run) = [StoreGet userId] /\
    no_store_write (calls_since w (snd run)) /\
    db_users (snd run) = db_users w in
  not_found (updateUserById userId userData w) /\
  not_found (deleteUserById userId w) /\
  not_found (changePassword userId newPassword w).
Proof.
  intros H not_found. unfold not_found.
  rewrite updateUserById_missing, deleteUserById_missing, changePassword_missing by done.
  cbn [fst snd]. rewrite calls_since_log. done.
Qed.

(** C7: [login] makes exactly one call, the store query on the email
    field; it writes nothing to the store and does not read, write or
    delete in the cache, so store and cache are as before; and its response
    is the one it would give had the query returned the first matching
    document alone. *)
Theorem login_frame (email password : string) (w : world) :
  exists (r : IResBody) (w' : world),
    login email password w = (Ok r, w') /\
    calls_since w w' = [StoreWhere "email" (VStr email)] /\
    no_store_write (calls_since w w') /\
    no_cache_op (calls_since w w') /\
    db_users w' = db_users w /\
    redis w' = redis w /\
    r = login_response password (take 1 (matching "email" (VStr email) (db_users w))).
Proof.
  do 2 eexists. split; [apply login_run|].
  rewrite calls_since_log. repeat split.
  by destruct (matching "email" (VStr email) (db_users w)).
Qed.

(** C8: [createUser], [updateUserById] and [changePassword] make no cache
    call at all and leave the cache as it was, whatever branch they take;
    [deleteUserById] on an existing id does delete the key ['users']. *)
Theorem cache_untouched_except_delete
    (userId newPassword : string) (userData : obj) (w : world) :
  let untouched (run : outcome IResBody * world) :=
    no_cache_op (calls_since w (snd run)) /\ redis (snd run) = redis w in
  untouched (createUser userData w) /\
  untouched (updateUserById userId userData w) /\
  untouched (changePassword userId newPassword w) /\
  (is_Some (db_users w !! userId) ->
   In (CacheDel "users") (calls_since w (snd (deleteUserById userId w))) /\
   redis (snd (deleteUserById userId w)) = delete "users" (redis w)).
Proof.
  intros untouched. unfold untouched. repeat split.
  - destruct (matching "email" (get userData "email") (db_users w)) eqn:Hq.
    + rewrite createUser_fresh by done. cbn [snd].
      erewrite calls_since_app by reflexivity. done.
    + rewrite createUser_conflict by (by rewrite Hq). cbn [snd].
      by rewrite calls_since_log.
  - destruct (matching "email" (get userData "email") (db_users w)) eqn:Hq.
    + by rewrite createUser_fresh by done.
    + by rewrite createUser_conflict by (by rewrite Hq).
  - destruct (db_users w !! userId) eqn:Hd.
    + erewrite updateUserById_found by done. cbn [snd].
      erewrite calls_since_app by reflexivity. done.
    + rewrite updateUserById_missing by done. cbn [snd]. by rewrite calls_since_log.
  - destruct (db_users w !! userId) eqn:Hd.
    + by erewrite updateUserById_found by done.
    + by rewrite updateUserById_missing by done.
  - destruct (db_users w !! userId) eqn:Hd.
    + erewrite changePassword_found by done. cbn [snd].
      erewrite calls_since_app by reflexivity. done.
    + rewrite changePassword_missing by done. cbn [snd]. by rewrite calls_since_log.
  - destruct (db_users w !! userId) eqn:Hd.
    + by erewrite changePassword_found by done.
    + by rewrite changePassword_missing by done.
  - destruct H as [d Hd]. erewrite deleteUserById_found by done. cbn [snd].
    erewrite calls_since_app by reflexivity. cbn. tauto.
  - destruct H as [d Hd]. by erewrite deleteUserById_found by done.
Qed.

(** C9: every write to an account record carries a reading of the
    timestamp source taken during the call as [updatedAt]: the document
    [createUser] sets has it, and the field sets that [updateUserById] and
    [changePassword] send for an existing id have it, overriding any
    [updatedAt] the caller supplied; the stored record shows that reading
    afterwards. *)
Theorem updatedAt_refreshed (w : world) :
  (forall userData : obj,
      matching "email" (get userData "email") (db_users w) = [] ->
      exists (r : IResBody) (id : string) (d : obj) (w' : world),
        createUser userData w = (Ok r, w') /\
        In (StoreSet id d) (calls_since w w') /\
        d !! "updatedAt" = Some (VTime (firestoreTimestamp_now (S (clock_reads w)))) /\
        db_users w' !! id = Some d /\
        (S (clock_reads w) < clock_reads w')%nat)
  /\
  (forall (userId : string) (userData : obj),
      is_Some (db_users w !! userId) ->
      exists (r : IResBody) (fields d' : obj) (w' : world),
        updateUserById userId userData w = (Ok r, w') /\
        In (StoreUpdate userId fields) (calls_since w w') /\
        fields !! "updatedAt" = Some (VTime (firestoreTimestamp_now (clock_reads w))) /\
        db_users w' !! userId = Some d' /\
        d' !! "updatedAt" = Some (VTime (firestoreTimestamp_now (clock_reads w))) /\
        (clock_reads w < clock_reads w')%nat)
  /\
  (forall userId newPassword : string,
      is_Some (db_users w !! userId) ->
      exists (r : IResBody) (fields d' : obj) (w' : world),
        changePassword userId newPassword w = (Ok r, w') /\
        In (StoreUpdate userId fields) (calls_since w w') /\
        fields !! "updatedAt" = Some (VTime (firestoreTimestamp_now (clock_reads w))) /\
        db_users w' !! userId = Some d' /\
        d' !! "updatedAt" = Some (VTime (firestoreTimestamp_now (clock_reads w))) /\
        (clock_reads w < clock_reads w')%nat).
Proof.
  repeat split.
  - intros userData Hq. do 4 eexists.
    split; [by apply createUser_fresh|].
    split; [erewrite calls_since_app by reflexivity; cbn; tauto|].
    split; [unfold new_user; by simplify_map_eq|].
    split; [cbn; by rewrite lookup_insert_eq|]. cbn. lia.
  - intros userId userData [d Hd]. do 4 eexists.
    split; [by eapply updateUserById_found|].
    split; [erewrite calls_since_app by reflexivity; cbn; tauto|].
    split; [by simplify_map_eq|].
    split; [cbn; by rewrite lookup_insert_eq|].
    split; [|cbn; lia].
    unfold spread. apply lookup_union_Some_l. by simplify_map_eq.
  - intros userId newPassword [d Hd]. do 4 eexists.
    split; [by eapply changePassword_found|].
    split; [erewrite calls_since_app by reflexivity; cbn; tauto|].
    split; [by simplify_map_eq|].
    split; [cbn; by rewrite lookup_insert_eq|].
    split; [|cbn; lia].
    unfold spread. apply lookup_union_Some_l. by simplify_map_eq.
Qed.

(** C10 (as amended): for every id, with or without a document under it,
    [getUserById] returns 200 with the payload
    [{ id: userId, ...formatUserData(data) }], where [data] is the
    document's data or [undefined]; there is no 404 branch.  The payload
    has the fields of the projection; its [id] is the supplied one when the
    projection has no [id] field, and the projection's own [id] otherwise. *)
Theorem getUserById_always_200 (userId : string) (w : world) :
  let formattedUser := formatUserData (db_users w !! userId) in
  exists (payload : obj) (w' : world),
    getUserById userId w =
      (Ok (ResBody 200 "User retrieved successfully!" (Some (DUser payload))), w') /\
    payload = with_id userId formattedUser /\
    calls_since w w' = [StoreGet userId] /\
    is_Some (payload !! "id") /\
    (formattedUser !! "id" = None -> payload !! "id" = Some (VStr userId)) /\
    (forall v : value, formattedUser !! "id" = Some v -> payload !! "id" = Some v) /\
    (forall k : string, k <> "id" -> payload !! k = formattedUser !! k).
Proof.
  intros formattedUser. do 2 eexists. split; [apply getUserById_run|].
  fold formattedUser. split; [done|]. split; [apply calls_since_log|].
  unfold with_id, spread.
  assert (Hother : forall k : string,
             k <> "id" ->
             (formattedUser ∪ {["id" := VStr userId]}) !! k = formattedUser !! k).
  { intros k Hk. rewrite lookup_union, lookup_singleton_ne by done.
    by destruct (formattedUser !! k). }
  assert (Hfree : formattedUser !! "id" = None ->
                  (formattedUser ∪ {["id" := VStr userId]}) !! "id" = Some (VStr userId)).
  { intros Hn. rewrite lookup_union, Hn, lookup_singleton_eq. done. }
  assert (Hown : forall v : value,
             formattedUser !! "id" = Some v ->
             (formattedUser ∪ {["id" := VStr userId]}) !! "id" = Some v).
  { intros v Hv. by apply lookup_union_Some_l. }
  split; [|done].
  destruct (formattedUser !! "id") as [v|] eqn:Hid.
  - exists v. by apply Hown.
  - rewrite Hfree by done. by eexists.
Qed.

End Claims.

(** ** The claims on concrete worlds *)

Import Demo.

Lemma alice_listed :
  matching "email" (VStr "alice@example.org") (db_users w_cold) = [("u1", alice)].
Proof. vm_compute. reflexivity. Qed.

Lemma nobody_listed :
  matching "email" (VStr "nobody@example.org") (db_users w_cold) = [].
Proof. vm_compute. reflexivity. Qed.

Lemma carol_not_listed :
  matching "email" (get carol_form "email") (db_users w_cold) = [].
Proof. vm_compute. reflexivity. Qed.

Lemma alice_already_listed :
  matching "email" (get alice "email") (db_users w_cold) <> [].
Proof.
  assert (H : matching "email" (get alice "email") (db_users w_cold) = [("u1", alice)])
    by (vm_compute; reflexivity).
  rewrite H. discriminate.
Qed.

(** C1, as written, fails when the cache key holds the empty string: the
    cache read returns a value, yet the listing is rebuilt from the store. *)
Lemma getUsers_blank_cache_reads_store :
  fst <$> redis w_blank !! "users" = Some "" /\
  In StoreGetAll (calls_since w_blank (snd (getUsers w_blank))) /\
  ~ cache_hit_as_stated w_blank.
Proof.
  assert (Hcached : fst <$> redis w_blank !! "users" = Some "")
    by (vm_compute; reflexivity).
  assert (Hcalls : existsb is_store_read (calls_since w_blank (snd (getUsers w_blank)))
                   = true) by (vm_compute; reflexivity).
  split; [exact Hcached|]. split; [by eapply (getUsers_blank w_blank 3600)|].
  intros Hclaim.
  destruct (Hclaim "" Hcached) as (j & r & w' & _ & Hrun & _ & _ & Hreads).
  rewrite Hrun in Hcalls. cbn [snd] in Hcalls. unfold no_store_read in Hreads.
  induction (calls_since w_blank w') as [|e evs IH]; [discriminate Hcalls|].
  cbn in Hcalls, Hreads. destruct (is_store_read e); [discriminate Hreads|].
  by apply IH.
Qed.

(** C4, as written, fails when two stored accounts carry the same email:
    whichever of them the query lists first, the password of the other one
    verifies against a stored account with that email and is refused. *)
Lemma login_twin_refused :
  ~ (forall password : string,
        login_any_match_as_stated w_twins "alice@example.org" password).
Proof.
  intros Hclaim.
  assert (H1 : db_users w_twins !! "u1" = Some alice) by (vm_compute; reflexivity).
  assert (H3 : db_users w_twins !! "u3" = Some alice_twin) by (vm_compute; reflexivity).
  assert (He1 : alice !! "email" = Some (VStr "alice@example.org"))
    by (vm_compute; reflexivity).
  assert (He3 : alice_twin !! "email" = Some (VStr "alice@example.org"))
    by (vm_compute; reflexivity).
  assert (Hp1 : comparePasswords "wonderland" (get alice "password") = true)
    by (vm_compute; reflexivity).
  assert (Hp3 : comparePasswords "looking-glass" (get alice_twin "password") = true)
    by (vm_compute; reflexivity).
  assert (Hone : status_of (fst (login "alice@example.org" "wonderland" w_twins))
                 = Some 401 \/
                 status_of (fst (login "alice@example.org" "looking-glass" w_twins))
                 = Some 401) by (vm_compute; tauto).
  destruct (Hclaim "wonderland" "u1" alice H1 He1 Hp1) as (r1 & w1 & Hrun1 & Hs1 & _).
  destruct (Hclaim "looking-glass" "u3" alice_twin H3 He3 Hp3)
    as (r3 & w3 & Hrun3 & Hs3 & _).
  rewrite Hrun1, Hrun3 in Hone. cbn [fst status_of] in Hone.
  rewrite Hs1, Hs3 in Hone. destruct Hone as [Hone | Hone]; discriminate Hone.
Qed.

Lemma getUsers_cache_aside_witness :
  (redis w_warm !! "users" = Some ("[]", 3600) /\ "[]" <> "" /\
   JSON_parse "[]" = Some (JArr [])) /\
  calls_since w_warm (snd (getUsers w_warm)) = [CacheGet "users"] /\
  redis w_cold !! "users" = None /\
  redis (snd (getUsers w_cold)) !! "users" = Some ("[...]", 3600).
Proof.
  assert (H1 : redis w_warm !! "users" = Some ("[]", 3600)) by (vm_compute; reflexivity).
  assert (H2 : "[]" <> "") by discriminate.
  assert (H3 : JSON_parse "[]" = Some (JArr [])) by (vm_compute; reflexivity).
  assert (H4 : redis w_cold !! "users" = None) by (vm_compute; reflexivity).
  assert (H5 : JSON_stringify
                 (map (fun doc => with_id (fst doc) (formatUserData (Some (snd doc))))
                      (map_to_list (db_users w_cold))) = "[...]")
    by (vm_compute; reflexivity).
  destruct (proj1 (getUsers_cache_aside w_warm) "[]" 3600 (JArr []) H1 H2 H3)
    as (w1 & Hrun1 & Hcalls1 & _).
  destruct (proj2 (getUsers_cache_aside w_cold) (or_introl H4))
    as (w2 & Hrun2 & _ & Hredis2 & _).
  rewrite Hrun1, Hrun2. cbn [snd]. rewrite Hredis2, H5, lookup_insert_eq.
  repeat split; assumption.
Defined.

Lemma deleteUserById_invalidates_witness :
  is_Some (db_users w_warm !! "u2") /\
  redis (snd (deleteUserById "u2" w_warm)) !! "users" = None /\
  db_users w_warm !! "u9" = None /\
  redis (snd (deleteUserById "u9" w_warm)) = redis w_warm.
Proof.
  assert (H1 : is_Some (db_users w_warm !! "u2"))
    by (exists bob; vm_compute; reflexivity).
  assert (H2 : db_users w_warm !! "u9" = None) by (vm_compute; reflexivity).
  destruct (proj1 (deleteUserById_invalidates "u2" w_warm) H1)
    as (w1 & Hrun1 & _ & _ & _ & Hredis1).
  destruct (proj2 (deleteUserById_invalidates "u9" w_warm) H2)
    as (w2 & Hrun2 & _ & _ & Hredis2).
  rewrite Hrun1, Hrun2. cbn [snd]. rewrite Hredis1, Hredis2, lookup_delete_eq.
  repeat split; assumption.
Defined.

Lemma login_refusals_differ_witness :
  (matching "email" (VStr "nobody@example.org") (db_users w_cold) = [] /\
   matching "email" (VStr "alice@example.org") (db_users w_cold) = [("u1", alice)] /\
   comparePasswords "guess" (get alice "password") = false) /\
  exists r1 r2 : IResBody,
    fst (login "nobody@example.org" "guess" w_cold) = Ok r1 /\
    fst (login "alice@example.org" "guess" w_cold) = Ok r2 /\
    status r1 = 401 /\ status r2 = 401 /\
    message r1 = "Unauthorized" /\ message r2 = "Unauthorized!".
Proof.
  assert (H3 : comparePasswords "guess" (get alice "password") = false)
    by (vm_compute; reflexivity).
  destruct (login_refusals_differ w_cold w_cold
              "nobody@example.org" "guess" "alice@example.org" "guess"
              ("u1", alice) [] nobody_listed alice_listed H3)
    as (r1 & r2 & w1 & w2 & Hrun1 & Hrun2 & Hs1 & Hs2 & Hm1 & Hm2 & _).
  split; [split; [exact nobody_listed | split; [exact alice_listed | exact H3]]|].
  exists r1, r2. rewrite Hrun1, Hrun2. cbn [fst].
  repeat split; assumption.
Defined.

Lemma login_success_witness :
  (matching "email" (VStr "alice@example.org") (db_users w_cold) = [("u1", alice)] /\
   comparePasswords "wonderland" (get alice "password") = true) /\
  exists user,
    fst (login "alice@example.org" "wonderland" w_cold) =
    Ok (ResBody 200 "User login successfully!" (Some (DLogin user "u1:admin"))).
Proof.
  assert (H2 : comparePasswords "wonderland" (get alice "password") = true)
    by (vm_compute; reflexivity).
  assert (H3 : generateToken "u1" (get (formatUserData (Some alice)) "role") = "u1:admin")
    by (vm_compute; reflexivity).
  destruct (login_success w_cold "alice@example.org" "wonderland"
              ("u1", alice) [] alice_listed H2) as (w' & Hrun & _).
  split; [split; [exact alice_listed | exact H2]|].
  eexists. rewrite Hrun. cbn [fst snd]. rewrite H3. reflexivity.
Defined.


Lemma missing_id_not_found_witness :
  db_users w_cold !! "u9" = None /\
  fst (updateUserById "u9" carol_form w_cold) = Ok (ResBody 404 "User not found" None) /\
  fst (deleteUserById "u9" w_cold) = Ok (ResBody 404 "User not found" None) /\
  fst (changePassword "u9" "n3w" w_cold) = Ok (ResBody 404 "User not found" None).
Proof.
  assert (H : db_users w_cold !! "u9" = None) by (vm_compute; reflexivity).
  destruct (missing_id_not_found "u9" "n3w" carol_form w_cold H)
    as ((Hu & _) & (Hd & _) & (Hc & _)).
  split; [exact H|]. split; [exact Hu|]. split; [exact Hd | exact Hc].
Defined.

Lemma cache_untouched_except_delete_witness :
  is_Some (db_users w_warm !! "u1") /\
  redis (snd (updateUserById "u1" carol_form w_warm)) = redis w_warm /\
  redis (snd (deleteUserById "u1" w_warm)) = delete "users" (redis w_warm).
Proof.
  assert (H : is_Some (db_users w_warm !! "u1"))
    by (exists alice; vm_compute; reflexivity).
  destruct (cache_untouched_except_delete "u1" "n3w" carol_form w_warm)
    as (_ & (_ & Hu) & _ & Hd).
  destruct (Hd H) as [_ Hdel].
  split; [exact H|]. split; [exact Hu | exact Hdel].
Defined.

Lemma updatedAt_refreshed_witness :
  (matching "email" (get carol_form "email") (db_users w_cold) = [] /\
   is_Some (db_users w_cold !! "u1") /\
   is_Some (db_users w_cold !! "u2")) /\
  (exists id d, db_users (snd (createUser carol_form w_cold)) !! id = Some d /\
                d !! "updatedAt" = Some (VTime 1700000001)) /\
  (exists d, db_users (snd (updateUserById "u1" carol_form w_cold)) !! "u1" = Some d /\
             d !! "updatedAt" = Some (VTime 1700000000)) /\
  (exists d, db_users (snd (changePassword "u2" "n3w" w_cold)) !! "u2" = Some d /\
             d !! "updatedAt" = Some (VTime 1700000000)).
Proof.
  assert (H1 : is_Some (db_users w_cold !! "u1"))
    by (exists alice; vm_compute; reflexivity).
  assert (H2 : is_Some (db_users w_cold !! "u2"))
    by (exists bob; vm_compute; reflexivity).
  assert (Ht0 : firestoreTimestamp_now (clock_reads w_cold) = 1700000000)
    by (vm_compute; reflexivity).
  assert (Ht1 : firestoreTimestamp_now (S (clock_reads w_cold)) = 1700000001)
    by (vm_compute; reflexivity).
  destruct (updatedAt_refreshed w_cold) as (Hcreate & Hupdate & Hchange).
  destruct (Hcreate carol_form carol_not_listed)
    as (r0 & id & d0 & w0 & Hrun0 & _ & Hup0 & Hdb0 & _).
  destruct (Hupdate "u1" carol_form H1)
    as (r1 & f1 & d1 & w1 & Hrun1 & _ & _ & Hdb1 & Hup1 & _).
  destruct (Hchange "u2" "n3w" H2)
    as (r2 & f2 & d2 & w2 & Hrun2 & _ & _ & Hdb2 & Hup2 & _).
  rewrite Ht1 in Hup0. rewrite Ht0 in Hup1, Hup2.
  rewrite Hrun0, Hrun1, Hrun2. cbn [snd].
  split; [split; [exact carol_not_listed | split; [exact H1 | exact H2]]|].
  split; [exists id, d0; split; assumption|].
  split; [exists d1; split; assumption | exists d2; split; assumption].
Defined.

Lemma getUserById_always_200_witness :
  (formatUserData (db_users w_cold !! "u9") !! "id" = None /\
   formatUserData (db_users DemoEnvs.w_imported !! "auto") !! "id"
   = Some (VStr "inner")) /\
  (exists payload,
     fst (getUserById "u9" w_cold) =
       Ok (ResBody 200 "User retrieved successfully!" (Some (DUser payload))) /\
     payload !! "id" = Some (VStr "u9")) /\
  (exists payload,
     fst (getUserById "auto" DemoEnvs.w_imported) =
       Ok (ResBody 200 "User retrieved successfully!" (Some (DUser payload))) /\
     payload !! "id" = Some (VStr "inner")).
Proof.
  assert (H : formatUserData (db_users w_cold !! "u9") !! "id" = None)
    by (vm_compute; reflexivity).
  assert (H' : formatUserData (db_users DemoEnvs.w_imported !! "auto") !! "id"
               = Some (VStr "inner")) by (vm_compute; reflexivity).
  destruct (getUserById_always_200 "u9" w_cold)
    as (payload & w' & Hrun & _ & _ & _ & Hid & _).
  destruct (getUserById_always_200 "auto" DemoEnvs.w_imported)
    as (payload' & w'' & Hrun' & _ & _ & _ & _ & Hown & _).
  split; [split; [exact H | exact H']|]. split.
  - exists payload. rewrite Hrun. cbn [fst].
    split; [reflexivity | exact (Hid H)].
  - exists payload'. rewrite Hrun'. cbn [fst].
    split; [reflexivity | exact (Hown _ H')].
Defined.

(** ** Two runs of the model *)

(** Signing up twice with one form: the second call is refused, and one
    record has been added. *)
Example create_twice :
  let w1 := snd (createUser carol_form w_cold) in
  status_of (fst (createUser carol_form w_cold)) = Some 201 /\
  status_of (fst (createUser carol_form w1)) = Some 409 /\
  size (db_users (snd (createUser carol_form w1))) = 3%nat.
Proof. vm_compute. repeat split. Qed.

(** Deleting an account empties the cache key, so the next listing is
    rebuilt from the store. *)
Example delete_then_list :
  let w1 := snd (deleteUserById "u2" w_warm) in
  calls_since w1 (snd (getUsers w1)) =
  [CacheGet "users"; StoreGetAll; CacheSet "users" "[...]" 3600].
Proof. vm_compute. reflexivity. Qed.

(** ** Queries *)

Lemma elem_of_matching (field : string) (v : value) (docs : gmap string obj)
    (id : string) (d : obj) :
  (id, d) ∈ matching field v docs <-> docs !! id = Some d /\ d !! field = Some v.
Proof.
  unfold matching. rewrite list_elem_of_filter, elem_of_map_to_list. cbn. tauto.
Qed.

Lemma matching_nil (field : string) (v : value) (docs : gmap string obj) :
  matching field v docs = [] <->
  (forall id d, docs !! id = Some d -> d !! field <> Some v).
Proof.
  split.
  - intros Hq id d Hd Hv.
    assert (Hin : (id, d) ∈ matching field v docs) by (by apply elem_of_matching).
    rewrite Hq in Hin. by apply elem_of_nil in Hin.
  - intros Hno. destruct (matching field v docs) as [|[id d] rest] eqn:Hq; [done|].
    assert (Hin : (id, d) ∈ matching field v docs)
      by (rewrite Hq; apply list_elem_of_here).
    apply elem_of_matching in Hin as [Hd Hv]. by destruct (Hno id d).
Qed.

(** ** The activity feed *)

(** X1: [getActivityFeed] has no failure branch and looks up no user: for
    every id it returns 200 after exactly three queries, on posts, comments
    and votes in that order, each on the field [userId]; the collections
    are left as they were, and when no document carries the id the three
    lists are empty. *)
Theorem getActivityFeed_always_200 (userId : string) (a : activity) :
  let run := getActivityFeed userId a in
  feed_status (fst run) = 200 /\
  feed_message (fst run) = "User activity retrieved successfully!" /\
  feed_trace (snd run) =
    feed_trace a ++ [PostsWhere "userId" (VStr userId);
                     CommentsWhere "userId" (VStr userId);
                     VotesWhere "userId" (VStr userId)] /\
  db_posts (snd run) = db_posts a /\
  db_comments (snd run) = db_comments a /\
  db_votes (snd run) = db_votes a /\
  ((forall id d, db_posts a !! id = Some d -> d !! "userId" <> Some (VStr userId)) ->
   (forall id d, db_comments a !! id = Some d -> d !! "userId" <> Some (VStr userId)) ->
   (forall id d, db_votes a !! id = Some d -> d !! "userId" <> Some (VStr userId)) ->
   feed_data (fst run) = Feed [] [] []).
Proof.
  cbn. repeat split.
  - by rewrite <- !app_assoc.
  - intros Hp Hc Hv.
    apply matching_nil in Hp, Hc, Hv. by rewrite Hp, Hc, Hv.
Qed.

Lemma elem_of_feed_items (userId : string) (docs : gmap string obj) (item : obj) :
  item ∈ map feed_item (matching "userId" (VStr userId) docs) <->
  exists id d, docs !! id = Some d /\ d !! "userId" = Some (VStr userId) /\
               item = with_id id d.
Proof.
  rewrite list_elem_of_fmap. split.
  - intros [[id d] [-> Hin]]. apply elem_of_matching in Hin as [Hd Hu].
    by exists id, d.
  - intros (id & d & Hd & Hu & ->). exists (id, d). split; [done|].
    by apply elem_of_matching.
Qed.

(** X2: each list of the feed holds exactly the documents of its collection
    whose [userId] field equals the given id, each as
    [{ id: doc.id, ...doc.data() }], one entry per document. *)
Theorem getActivityFeed_lists (userId : string) (a : activity) :
  let f := feed_data (fst (getActivityFeed userId a)) in
  let listed (docs : gmap string obj) (item : obj) :=
    exists id d, docs !! id = Some d /\ d !! "userId" = Some (VStr userId) /\
                 item = with_id id d in
  (forall item, item ∈ posts f <-> listed (db_posts a) item) /\
  (forall item, item ∈ comments f <-> listed (db_comments a) item) /\
  (forall item, item ∈ votes f <-> listed (db_votes a) item) /\
  length (posts f) = length (matching "userId" (VStr userId) (db_posts a)) /\
  length (comments f) = length (matching "userId" (VStr userId) (db_comments a)) /\
  length (votes f) = length (matching "userId" (VStr userId) (db_votes a)).
Proof.
  cbn. repeat split; try apply elem_of_feed_items; try apply length_map;
    intros H; by apply elem_of_feed_items.
Qed.

(** [{ id: id, ...o }]: the fields of [o] are kept, and [id] is the given
    one unless [o] has an [id] field, which then wins. *)
Lemma with_id_lookup (id : string) (o : obj) :
  (forall k : string, k <> "id" -> with_id id o !! k = o !! k) /\
  (o !! "id" = None -> with_id id o !! "id" = Some (VStr id)) /\
  (forall v, o !! "id" = Some v -> with_id id o !! "id" = Some v).
Proof.
  unfold with_id, spread. repeat split.
  - intros k Hk. rewrite lookup_union, lookup_singleton_ne by done.
    by destruct (o !! k).
  - intros Hn. by rewrite lookup_union, Hn, lookup_singleton_eq.
  - intros v Hv. by apply lookup_union_Some_l.
Qed.

(** X3: every item of the feed carries the queried id in its [userId]
    field; its [id] is the document's id when the document's data has no
    [id] field, and the data's own [id] otherwise. *)
Theorem getActivityFeed_items (userId : string) (a : activity) (item : obj) :
  let f := feed_data (fst (getActivityFeed userId a)) in
  item ∈ posts f ++ comments f ++ votes f ->
  item !! "userId" = Some (VStr userId) /\
  exists id d,
    (db_posts a !! id = Some d \/ db_comments a !! id = Some d \/
     db_votes a !! id = Some d) /\
    (d !! "id" = None -> item !! "id" = Some (VStr id)) /\
    (forall v, d !! "id" = Some v -> item !! "id" = Some v).
Proof.
  cbn. rewrite !elem_of_app, !elem_of_feed_items.
  intros [H | [H | H]]; destruct H as (id & d & Hd & Hu & ->);
    destruct (with_id_lookup id d) as (Hk & Hfree & Hown);
    (split; [by rewrite Hk | exists id, d; split; [tauto | by split]]).
Qed.

(** ** How the methods compose *)

Section Compose.
Context `{C : Collaborators}.

Lemma new_user_lookup (userData : obj) (createdAt updatedAt : Z) (k : string) :
  k <> "password" -> k <> "role" -> k <> "createdAt" -> k <> "updatedAt" ->
  new_user userData createdAt updatedAt !! k = userData !! k.
Proof. intros. unfold new_user. by simplify_map_eq. Qed.

Lemma get_lookup (o : obj) (k : string) (v : value) : o !! k = Some v -> get o k = v.
Proof. intros H. unfold get. by rewrite H. Qed.

Lemma createUser_redis (userData : obj) (w : world) :
  redis (snd (createUser userData w)) = redis w.
Proof.
  destruct (matching "email" (get userData "email") (db_users w)) eqn:Hq.
  - by rewrite createUser_fresh by done.
  - by rewrite createUser_conflict by (by rewrite Hq).
Qed.

Lemma updateUserById_redis (userId : string) (userData : obj) (w : world) :
  redis (snd (updateUserById userId userData w)) = redis w.
Proof.
  destruct (db_users w !! userId) eqn:Hd.
  - by erewrite updateUserById_found by done.
  - by rewrite updateUserById_missing by done.
Qed.

Lemma changePassword_redis (userId newPassword : string) (w : world) :
  redis (snd (changePassword userId newPassword w)) = redis w.
Proof.
  destruct (db_users w !! userId) eqn:Hd.
  - by erewrite changePassword_found by done.
  - by rewrite changePassword_missing by done.
Qed.

(** X4: once [createUser] has run on a form with an email, a further
    [createUser] with that email returns 409 and writes nothing, whether
    the first call created the account or found it already there. *)
Theorem createUser_again_conflict (userData userData' : obj) (v : value) (w : world) :
  userData !! "email" = Some v ->
  get userData' "email" = v ->
  let w1 := snd (createUser userData w) in
  createUser userData' w1 =
    (Ok (ResBody 409 "User already exists" None), log (StoreWhere "email" v) w1) /\
  db_users (snd (createUser userData' w1)) = db_users w1.
Proof.
  intros He He' w1.
  assert (Hq1 : matching "email" (get userData' "email") (db_users w1) <> []).
  { rewrite He'. pose proof (get_lookup _ _ _ He) as Hg.
    unfold w1. destruct (matching "email" (get userData "email") (db_users w)) eqn:Hq.
    - rewrite createUser_fresh by done. cbn [snd db_users].
      intros Hnil. rewrite matching_nil in Hnil.
      eapply Hnil; [apply lookup_insert_eq|].
      by rewrite new_user_lookup.
    - rewrite createUser_conflict by (by rewrite Hq). cbn [snd].
      change (db_users (log _ w)) with (db_users w). by rewrite <- Hg, Hq. }
  rewrite createUser_conflict by done. by rewrite He'.
Qed.

(** X5: an account created from a form with a new email can log in with
    the form's password, provided the password verifies against its own
    hash: [login] then returns 200 with the profile of the record just
    written and the token for the generated id. *)
Theorem createUser_then_login (userData : obj) (email password : string) (w : world) :
  userData !! "email" = Some (VStr email) ->
  matching "email" (VStr email) (db_users w) = [] ->
  comparePasswords password
    (VStr (encryptPassword (get userData "password"))) = true ->
  let id := auto_id (ids_issued w) in
  let d := new_user userData (firestoreTimestamp_now (clock_reads w))
                             (firestoreTimestamp_now (S (clock_reads w))) in
  let formattedUser := formatUserData (Some d) in
  fst (login email password (snd (createUser userData w))) =
  Ok (ResBody 200 "User login successfully!"
        (Some (DLogin formattedUser (generateToken id (get formattedUser "role"))))).
Proof.
  intros He Hq Hp id d formattedUser.
  pose proof (get_lookup _ _ _ He) as Hg.
  rewrite createUser_fresh by (by rewrite Hg). cbn [snd]. fold id d.
  apply login_sole_account; cbn [db_users].
  - apply lookup_insert_eq.
  - unfold d. by rewrite new_user_lookup.
  - intros id' d' Hd' He'. destruct (decide (id' = id)) as [|Hne]; [done|].
    rewrite lookup_insert_ne in Hd' by done.
    rewrite matching_nil in Hq. by destruct (Hq id' d').
  - assert (Hpw : get d "password" = VStr (encryptPassword (get userData "password"))).
    { apply get_lookup. unfold d, new_user. by simplify_map_eq. }
    by rewrite Hpw.
Qed.

(** X6: reading back an account right after its creation: [getUserById] on
    the generated id returns 200 with the projection of exactly the record
    [createUser] wrote, whose fields other than password, role and the two
    timestamps are those of the form. *)
Theorem createUser_then_getUserById (userData : obj) (w : world) :
  matching "email" (get userData "email") (db_users w) = [] ->
  let id := auto_id (ids_issued w) in
  exists d : obj,
    fst (getUserById id (snd (createUser userData w))) =
      Ok (ResBody 200 "User retrieved successfully!"
            (Some (DUser (with_id id (formatUserData (Some d)))))) /\
    d !! "role" = Some (VStr "member") /\
    (forall k : string,
        k <> "password" -> k <> "role" -> k <> "createdAt" -> k <> "updatedAt" ->
        d !! k = userData !! k).
Proof.
  intros Hq id. eexists. split; [|split].
  - rewrite createUser_fresh by done. cbn [snd]. rewrite getUserById_run.
    cbn [fst db_users]. fold id. by rewrite lookup_insert_eq.
  - unfold new_user. by simplify_map_eq.
  - intros k ? ? ? ?. by apply new_user_lookup.
Qed.

(** X7: [updateUserById] on an existing id merges: every field supplied,
    [password] and [role] included, is stored as given (no hashing is
    applied), every field not supplied keeps its value, other documents are
    untouched, and the 200 response carries the projection of the merged
    record. *)
Theorem updateUserById_merges (userId : string) (userData d : obj) (w : world) :
  db_users w !! userId = Some d ->
  exists (d' : obj) (w' : world),
    updateUserById userId userData w =
      (Ok (ResBody 200 "User updated successfully!"
             (Some (DUser (with_id userId (formatUserData (Some d')))))), w') /\
    db_users w' !! userId = Some d' /\
    (forall (k : string) (v : value),
        k <> "updatedAt" -> userData !! k = Some v -> d' !! k = Some v) /\
    (forall k : string,
        k <> "updatedAt" -> userData !! k = None -> d' !! k = d !! k) /\
    (forall id' : string, id' <> userId -> db_users w' !! id' = db_users w !! id').
Proof.
  intros Hd. do 2 eexists. split; [by eapply updateUserById_found|].
  cbn [db_users]. split; [by rewrite lookup_insert_eq|]. unfold spread.
  split; [|split].
  - intros k v Hk Hv. apply lookup_union_Some_l. by rewrite lookup_insert_ne.
  - intros k Hk Hn. rewrite lookup_union_r; [done|]. by rewrite lookup_insert_ne.
  - intros id' Hne. by rewrite lookup_insert_ne.
Qed.

(** X8: [updateUserById] checks no email: giving an existing account the
    email of another one succeeds with 200, after which the email query
    returns both accounts. *)
Theorem updateUserById_duplicates_email
    (userId other : string) (userData d dother : obj) (v : value) (w : world) :
  db_users w !! userId = Some d ->
  db_users w !! other = Some dother ->
  other <> userId ->
  dother !! "email" = Some v ->
  userData !! "email" = Some v ->
  let run := updateUserById userId userData w in
  status_of (fst run) = Some 200 /\
  exists d', (userId, d') ∈ matching "email" v (db_users (snd run)) /\
             (other, dother) ∈ matching "email" v (db_users (snd run)).
Proof.
  intros Hd Ho Hne Heo Hev run. unfold run.
  erewrite updateUserById_found by done. cbn [fst snd status_of status db_users].
  split; [done|]. eexists. split; apply elem_of_matching.
  - split; [apply lookup_insert_eq|]. unfold spread.
    apply lookup_union_Some_l. by rewrite lookup_insert_ne.
  - split; [by rewrite lookup_insert_ne | done].
Qed.

(** X9: [changePassword] on an existing id replaces the stored password by
    [encryptPassword] of the new one and changes nothing else but
    [updatedAt]: the other fields of the record and all other documents
    are as before. *)
Theorem changePassword_effect (userId newPassword : string) (d : obj) (w : world) :
  db_users w !! userId = Some d ->
  exists (d' : obj) (w' : world),
    changePassword userId newPassword w =
      (Ok (ResBody 200 "Password changed successfully!" None), w') /\
    db_users w' !! userId = Some d' /\
    d' !! "password" = Some (VStr (encryptPassword (VStr newPassword))) /\
    (forall k : string, k <> "password" -> k <> "updatedAt" -> d' !! k = d !! k) /\
    (forall id' : string, id' <> userId -> db_users w' !! id' = db_users w !! id').
Proof.
  intros Hd. do 2 eexists. split; [by eapply changePassword_found|].
  cbn [db_users]. split; [by rewrite lookup_insert_eq|]. unfold spread.
  split; [|split].
  - apply lookup_union_Some_l. by simplify_map_eq.
  - intros k Hp Hu. rewrite lookup_union_r; [done|]. by simplify_map_eq.
  - intros id' Hne. by rewrite lookup_insert_ne.
Qed.

(** X10: after [changePassword], the only account under its email logs in
    with the new password, provided the new password verifies against its
    own hash. *)
Theorem changePassword_then_login
    (userId email newPassword : string) (d : obj) (w : world) :
  db_users w !! userId = Some d ->
  d !! "email" = Some (VStr email) ->
  (forall id' d', db_users w !! id' = Some d' ->
                  d' !! "email" = Some (VStr email) -> id' = userId) ->
  comparePasswords newPassword
    (VStr (encryptPassword (VStr newPassword))) = true ->
  exists d' : obj,
    db_users (snd (changePassword userId newPassword w)) !! userId = Some d' /\
    let formattedUser := formatUserData (Some d') in
    fst (login email newPassword (snd (changePassword userId newPassword w))) =
    Ok (ResBody 200 "User login successfully!"
          (Some (DLogin formattedUser (generateToken userId (get formattedUser "role"))))).
Proof.
  intros Hd He Huniq Hp.
  destruct (changePassword_effect userId newPassword d w Hd)
    as (d' & w' & Hrun & Hd' & Hpw & Hkeep & Hothers).
  rewrite Hrun. cbn [snd]. exists d'. split; [done|].
  apply login_sole_account.
  - done.
  - by rewrite Hkeep.
  - intros id' d0 Hd0 He0. destruct (decide (id' = userId)) as [|Hne]; [done|].
    rewrite Hothers in Hd0 by done. by apply (Huniq id' d0).
  - by rewrite (get_lookup _ _ _ Hpw).
Qed.

(** X11: after a successful [deleteUserById] the document is gone and the
    others are untouched; deleting the same id again returns 404 after a
    single read, and [getUserById] on it still answers 200, with the
    projection of [undefined]. *)
Theorem deleteUserById_then (userId : string) (w : world) :
  is_Some (db_users w !! userId) ->
  let w1 := snd (deleteUserById userId w) in
  db_users w1 !! userId = None /\
  (forall id' : string, id' <> userId -> db_users w1 !! id' = db_users w !! id') /\
  deleteUserById userId w1 =
    (Ok (ResBody 404 "User not found" None), log (StoreGet userId) w1) /\
  fst (getUserById userId w1) =
    Ok (ResBody 200 "User retrieved successfully!"
          (Some (DUser (with_id userId (formatUserData None))))).
Proof.
  intros [d Hd] w1. unfold w1. erewrite deleteUserById_found by done.
  cbn [snd]. split; [cbn; apply lookup_delete_eq|].
  split; [intros id' Hne; cbn; by apply lookup_delete_ne|].
  split.
  - apply deleteUserById_missing. cbn. apply lookup_delete_eq.
  - rewrite getUserById_run. cbn [fst db_users]. by rewrite lookup_delete_eq.
Qed.

Lemma listing_length (docs : list (string * obj)) :
  length (push_users docs []) = length docs.
Proof. rewrite push_users_acc. cbn. apply length_map. Qed.

(** X12: whatever the cache held, the [getUsers] that follows a successful
    [deleteUserById] misses: it reads the store, returns the listing built
    from the remaining documents, one entry fewer than there were
    documents, and caches it again. *)
Theorem deleteUserById_then_getUsers (userId : string) (w : world) :
  is_Some (db_users w !! userId) ->
  let w1 := snd (deleteUserById userId w) in
  let users := push_users (map_to_list (delete userId (db_users w))) [] in
  exists w2,
    getUsers w1 =
      (Ok (ResBody 200 "Users retrieved successfully!" (Some (DUsers users))), w2) /\
    calls_since w1 w2 =
      [CacheGet "users"; StoreGetAll; CacheSet "users" (JSON_stringify users) 3600] /\
    length users = pred (size (db_users w)).
Proof.
  intros [d Hd] w1 users. unfold w1. erewrite deleteUserById_found by done.
  cbn [snd]. eexists. split; [|split].
  - apply getUsers_miss. cbn. by rewrite lookup_delete_eq.
  - by apply calls_since_app.
  - unfold users. rewrite listing_length, length_map_to_list.
    apply map_size_delete_Some. by eexists.
Qed.

(** X13: a cached listing survives [createUser], [updateUserById] and
    [changePassword]: when the cache holds a non-empty text that
    [JSON.parse] accepts, [getUsers] after any of the three returns the
    same parsed value as before, with the cache read as its only call, so
    the change is not visible in the listing. *)
Theorem cached_listing_stale
    (userId newPassword : string) (userData : obj)
    (v : string) (ex : Z) (j : json) (w : world) :
  redis w !! "users" = Some (v, ex) -> v <> "" -> JSON_parse v = Some j ->
  let same_listing (w' : world) :=
    getUsers w' =
      (Ok (ResBody 200 "Users retrieved successfully!" (Some (DParsed j))),
       log (CacheGet "users") w') /\
    fst (getUsers w') = fst (getUsers w) in
  same_listing (snd (createUser userData w)) /\
  same_listing (snd (updateUserById userId userData w)) /\
  same_listing (snd (changePassword userId newPassword w)).
Proof.
  intros Hc Hv Hj same_listing. unfold same_listing.
  rewrite (getUsers_hit w v ex j) by done. cbn [fst].
  repeat split;
    (erewrite getUsers_hit;
     [reflexivity
     | rewrite ?createUser_redis, ?updateUserById_redis, ?changePassword_redis;
       exact Hc
     | done | done]).
Qed.

(** X14: a second [getUsers] right after one that missed is served from
    the cache: provided the serialized listing is not the empty text and
    parses, it returns the parsed value with the cache read as its only
    call, and the store is not read again. *)
Theorem getUsers_twice (j : json) (w : world) :
  truthy (fst <$> redis w !! "users") = false ->
  let users := push_users (map_to_list (db_users w)) [] in
  JSON_stringify users <> "" ->
  JSON_parse (JSON_stringify users) = Some j ->
  let w1 := snd (getUsers w) in
  getUsers w1 =
    (Ok (ResBody 200 "Users retrieved successfully!" (Some (DParsed j))),
     log (CacheGet "users") w1) /\
  no_store_read (calls_since w1 (snd (getUsers w1))).
Proof.
  intros Hmiss users Hne Hj w1.
  assert (Hc : redis w1 !! "users" = Some (JSON_stringify users, 3600)).
  { unfold w1. rewrite getUsers_miss by done. cbn. apply lookup_insert_eq. }
  rewrite (getUsers_hit w1 _ _ j Hc Hne Hj). split; [done|].
  cbn [snd]. by rewrite calls_since_log.
Qed.

(** X15: on a miss the listing has exactly one entry per stored document,
    in the order of the snapshot, and an empty store gives the empty
    listing. *)
Theorem getUsers_listing_size (w : world) :
  truthy (fst <$> redis w !! "users") = false ->
  exists users : list obj,
    fst (getUsers w) =
      Ok (ResBody 200 "Users retrieved successfully!" (Some (DUsers users))) /\
    users = map (fun doc => with_id (fst doc) (formatUserData (Some (snd doc))))
                (map_to_list (db_users w)) /\
    length users = size (db_users w) /\
    (db_users w = ∅ -> users = []).
Proof.
  intros Hmiss. eexists. split; [by rewrite getUsers_miss|].
  split; [by rewrite push_users_acc|].
  split; [by rewrite listing_length, length_map_to_list|].
  intros ->. by rewrite map_to_list_empty.
Qed.

(** X16: [getUsers] throws exactly when the cache holds a non-empty text
    that [JSON.parse] rejects; the error is the parser's, it comes after
    the cache read and before any store call, and store and cache are left
    as they were. *)
Theorem getUsers_throws_iff (w : world) :
  (is_thrown (fst (getUsers w)) = true <->
   exists (v : string) (ex : Z),
     redis w !! "users" = Some (v, ex) /\ v <> "" /\ JSON_parse v = None)
  /\
  (is_thrown (fst (getUsers w)) = true ->
   getUsers w = (Thrown SyntaxError, log (CacheGet "users") w)).
Proof.
  destruct (redis w !! "users") as [[v ex]|] eqn:Hc.
  - destruct (decide (v = "")) as [->|Hv].
    + rewrite getUsers_miss by (by rewrite Hc). cbn. split; [|done].
      split; [done|]. by intros (v & ex' & [= <- _] & Hne & _).
    + destruct (JSON_parse v) as [j|] eqn:Hj.
      * rewrite (getUsers_hit w v ex j) by done. cbn. split; [|done].
        split; [done|]. intros (v' & ex' & [= <- _] & _ & Hn). congruence.
      * rewrite (getUsers_malformed w v ex) by done. cbn. split; [|done].
        split; [|done]. intros _. by exists v, ex.
  - rewrite getUsers_miss by (by rewrite Hc). cbn. split; [|done].
    split; [done|]. by intros (v & ex & [=] & _).
Qed.

(** X18: after [changePassword], a password that does not verify against
    the new hash is refused by [login] with 401 and the text
    ["Unauthorized!"], the old password included, when the account is the
    only one under its email. *)
Theorem changePassword_refuses_other
    (userId email newPassword password : string) (d : obj) (w : world) :
  db_users w !! userId = Some d ->
  d !! "email" = Some (VStr email) ->
  (forall id' d', db_users w !! id' = Some d' ->
                  d' !! "email" = Some (VStr email) -> id' = userId) ->
  comparePasswords password
    (VStr (encryptPassword (VStr newPassword))) = false ->
  fst (login email password (snd (changePassword userId newPassword w))) =
  Ok (ResBody 401 "Unauthorized!" None).
Proof.
  intros Hd He Huniq Hp.
  destruct (changePassword_effect userId newPassword d w Hd)
    as (d' & w' & Hrun & Hd' & Hpw & Hkeep & Hothers).
  rewrite Hrun. cbn [snd].
  destruct (matching_sole "email" (VStr email) (db_users w') userId d') as [rest Hq].
  - done.
  - by rewrite Hkeep.
  - intros id' d0 Hd0 He0. destruct (decide (id' = userId)) as [|Hne]; [done|].
    rewrite Hothers in Hd0 by done. by apply (Huniq id' d0).
  - rewrite login_run, Hq. cbn. by rewrite (get_lookup _ _ _ Hpw), Hp.
Qed.

(** X19: deleting the only account under an email frees the email: a
    [login] with it is then refused with 401 and the text ["Unauthorized"]
    whatever the password, and a [createUser] with it returns 201. *)
Theorem deleteUserById_frees_email
    (userId email password : string) (userData d : obj) (w : world) :
  db_users w !! userId = Some d ->
  (forall id' d', db_users w !! id' = Some d' ->
                  d' !! "email" = Some (VStr email) -> id' = userId) ->
  get userData "email" = VStr email ->
  let w1 := snd (deleteUserById userId w) in
  fst (login email password w1) = Ok (ResBody 401 "Unauthorized" None) /\
  fst (createUser userData w1) = Ok (ResBody 201 "User created successfully!" None).
Proof.
  intros Hd Huniq Hg w1.
  assert (Hq : matching "email" (VStr email) (db_users w1) = []).
  { unfold w1. erewrite deleteUserById_found by done. cbn [snd db_users].
    apply matching_nil. intros id' d' Hd' He'.
    destruct (decide (id' = userId)) as [->|Hne].
    - by rewrite lookup_delete_eq in Hd'.
    - rewrite lookup_delete_ne in Hd' by done. by destruct (Hne (Huniq id' d' Hd' He')). }
  split.
  - by rewrite login_run, Hq.
  - by rewrite createUser_fresh by (by rewrite Hg).
Qed.

End Compose.


(** ** The further properties on concrete worlds *)

Import DemoMore.

Lemma feed_lists_eq (userId : string) (a : activity) :
  feed_data (fst (getActivityFeed userId a)) =
  Feed (map feed_item (matching "userId" (VStr userId) (db_posts a)))
       (map feed_item (matching "userId" (VStr userId) (db_comments a)))
       (map feed_item (matching "userId" (VStr userId) (db_votes a))).
Proof. reflexivity. Qed.

Lemma matching_singleton_sole (field : string) (v : value) (docs : gmap string obj)
    (id : string) (d : obj) :
  matching field v docs = [(id, d)] ->
  forall id' d', docs !! id' = Some d' -> d' !! field = Some v -> id' = id.
Proof.
  intros Hq id' d' Hd' Hv'.
  assert (Hin : (id', d') ∈ matching field v docs) by (by apply elem_of_matching).
  rewrite Hq in Hin. apply list_elem_of_singleton in Hin. congruence.
Qed.

Lemma u1_is_alice : db_users w_cold !! "u1" = Some alice.
Proof. vm_compute. reflexivity. Qed.

Lemma u2_is_bob : db_users w_cold !! "u2" = Some bob.
Proof. vm_compute. reflexivity. Qed.

Lemma bob_listed :
  matching "email" (VStr "bob@example.org") (db_users w_cold) = [("u2", bob)].
Proof. vm_compute. reflexivity. Qed.

Lemma bob_email : bob !! "email" = Some (VStr "bob@example.org").
Proof. vm_compute. reflexivity. Qed.

Lemma alice_email : alice !! "email" = Some (VStr "alice@example.org").
Proof. vm_compute. reflexivity. Qed.

Lemma carol_email : carol_form !! "email" = Some (VStr "carol@example.org").
Proof. vm_compute. reflexivity. Qed.

Lemma takeover_email : takeover_form !! "email" = Some (VStr "alice@example.org").
Proof. vm_compute. reflexivity. Qed.

Lemma cold_misses : truthy (fst <$> redis w_cold !! "users") = false.
Proof. vm_compute. reflexivity. Qed.

Lemma getActivityFeed_always_200_witness :
  ((forall id d, db_posts a_some !! id = Some d -> d !! "userId" <> Some (VStr "u9")) /\
   (forall id d, db_comments a_some !! id = Some d -> d !! "userId" <> Some (VStr "u9")) /\
   (forall id d, db_votes a_some !! id = Some d -> d !! "userId" <> Some (VStr "u9"))) /\
  feed_data (fst (getActivityFeed "u9" a_some)) = Feed [] [] [].
Proof.
  assert (Hp : forall id d, db_posts a_some !! id = Some d ->
                            d !! "userId" <> Some (VStr "u9"))
    by (apply matching_nil; vm_compute; reflexivity).
  assert (Hc : forall id d, db_comments a_some !! id = Some d ->
                            d !! "userId" <> Some (VStr "u9"))
    by (apply matching_nil; vm_compute; reflexivity).
  assert (Hv : forall id d, db_votes a_some !! id = Some d ->
                            d !! "userId" <> Some (VStr "u9"))
    by (apply matching_nil; vm_compute; reflexivity).
  destruct (getActivityFeed_always_200 "u9" a_some) as (_ & _ & _ & _ & _ & _ & Hnone).
  split; [split; [exact Hp | split; [exact Hc | exact Hv]]|].
  exact (Hnone Hp Hc Hv).
Defined.

Lemma getActivityFeed_lists_witness :
  (db_posts a_some !! "p1" = Some post1 /\ post1 !! "userId" = Some (VStr "u1")) /\
  with_id "p1" post1 ∈ posts (feed_data (fst (getActivityFeed "u1" a_some))).
Proof.
  assert (H1 : db_posts a_some !! "p1" = Some post1) by (vm_compute; reflexivity).
  assert (H2 : post1 !! "userId" = Some (VStr "u1")) by (vm_compute; reflexivity).
  destruct (getActivityFeed_lists "u1" a_some) as (Hposts & _).
  split; [split; [exact H1 | exact H2]|].
  apply Hposts. exists "p1", post1. split; [exact H1|]. split; [exact H2 | reflexivity].
Defined.

Lemma getActivityFeed_items_witness :
  with_id "p3" post3 ∈
    posts (feed_data (fst (getActivityFeed "u1" a_some))) ++
    comments (feed_data (fst (getActivityFeed "u1" a_some))) ++
    votes (feed_data (fst (getActivityFeed "u1" a_some))) /\
  with_id "p3" post3 !! "userId" = Some (VStr "u1").
Proof.
  assert (H1 : db_posts a_some !! "p3" = Some post3) by (vm_compute; reflexivity).
  assert (H2 : post3 !! "userId" = Some (VStr "u1")) by (vm_compute; reflexivity).
  assert (Hin : with_id "p3" post3 ∈
                  posts (feed_data (fst (getActivityFeed "u1" a_some))) ++
                  comments (feed_data (fst (getActivityFeed "u1" a_some))) ++
                  votes (feed_data (fst (getActivityFeed "u1" a_some)))).
  { apply elem_of_app. left. rewrite feed_lists_eq. cbn [posts].
    apply elem_of_feed_items. exists "p3", post3.
    split; [exact H1|]. split; [exact H2 | reflexivity]. }
  split; [exact Hin|].
  exact (proj1 (getActivityFeed_items "u1" a_some (with_id "p3" post3) Hin)).
Defined.

Lemma createUser_again_conflict_witness :
  (carol_form !! "email" = Some (VStr "carol@example.org") /\
   get carol_form "email" = VStr "carol@example.org") /\
  status_of (fst (createUser carol_form (snd (createUser carol_form w_cold)))) = Some 409.
Proof.
  assert (Hg : get carol_form "email" = VStr "carol@example.org")
    by (vm_compute; reflexivity).
  destruct (createUser_again_conflict carol_form carol_form
              (VStr "carol@example.org") w_cold carol_email Hg) as [Hrun _].
  split; [split; [exact carol_email | exact Hg]|].
  rewrite Hrun. reflexivity.
Defined.

Lemma createUser_then_login_witness :
  (carol_form !! "email" = Some (VStr "carol@example.org") /\
   matching "email" (VStr "carol@example.org") (db_users w_cold) = [] /\
   comparePasswords "s3cret"
     (VStr (encryptPassword (get carol_form "password"))) = true) /\
  status_of (fst (login "carol@example.org" "s3cret" (snd (createUser carol_form w_cold))))
  = Some 200.
Proof.
  assert (Hq : matching "email" (VStr "carol@example.org") (db_users w_cold) = [])
    by (vm_compute; reflexivity).
  assert (Hp : comparePasswords "s3cret"
                 (VStr (encryptPassword (get carol_form "password"))) = true)
    by (vm_compute; reflexivity).
  pose proof (createUser_then_login carol_form "carol@example.org" "s3cret" w_cold
                carol_email Hq Hp) as Hrun. cbn zeta in Hrun.
  split; [split; [exact carol_email | split; [exact Hq | exact Hp]]|].
  rewrite Hrun. reflexivity.
Defined.

Lemma createUser_then_getUserById_witness :
  matching "email" (get carol_form "email") (db_users w_cold) = [] /\
  status_of (fst (getUserById (auto_id (ids_issued w_cold))
                    (snd (createUser carol_form w_cold)))) = Some 200.
Proof.
  destruct (createUser_then_getUserById carol_form w_cold carol_not_listed)
    as (d & Hrun & _).
  split; [exact carol_not_listed|]. rewrite Hrun. reflexivity.
Defined.

Lemma updateUserById_merges_witness :
  db_users w_cold !! "u2" = Some bob /\
  exists d', db_users (snd (updateUserById "u2" takeover_form w_cold)) !! "u2" = Some d' /\
             d' !! "password" = Some (VStr "letmein") /\
             d' !! "role" = Some (VStr "admin").
Proof.
  assert (Hpw : takeover_form !! "password" = Some (VStr "letmein"))
    by (vm_compute; reflexivity).
  assert (Hrole : takeover_form !! "role" = Some (VStr "admin"))
    by (vm_compute; reflexivity).
  destruct (updateUserById_merges "u2" takeover_form bob w_cold u2_is_bob)
    as (d' & w' & Hrun & Hd' & Hset & _).
  split; [exact u2_is_bob|]. exists d'. rewrite Hrun. cbn [snd].
  split; [exact Hd'|]. split.
  - apply (Hset "password" (VStr "letmein")); [discriminate | exact Hpw].
  - apply (Hset "role" (VStr "admin")); [discriminate | exact Hrole].
Defined.

Lemma updateUserById_duplicates_email_witness :
  (db_users w_cold !! "u2" = Some bob /\ db_users w_cold !! "u1" = Some alice /\
   "u1" <> "u2" /\ alice !! "email" = Some (VStr "alice@example.org") /\
   takeover_form !! "email" = Some (VStr "alice@example.org")) /\
  status_of (fst (updateUserById "u2" takeover_form w_cold)) = Some 200.
Proof.
  assert (Hne : "u1" <> "u2") by discriminate.
  destruct (updateUserById_duplicates_email "u2" "u1" takeover_form bob alice
              (VStr "alice@example.org") w_cold
              u2_is_bob u1_is_alice Hne alice_email takeover_email) as [Hs _].
  split; [|exact Hs].
  split; [exact u2_is_bob|]. split; [exact u1_is_alice|]. split; [exact Hne|].
  split; [exact alice_email | exact takeover_email].
Defined.

Lemma changePassword_effect_witness :
  db_users w_cold !! "u2" = Some bob /\
  exists d', db_users (snd (changePassword "u2" "n3w" w_cold)) !! "u2" = Some d' /\
             d' !! "password" = Some (VStr "$2b$n3w") /\
             d' !! "email" = Some (VStr "bob@example.org").
Proof.
  assert (Hhash : encryptPassword (VStr "n3w") = "$2b$n3w") by (vm_compute; reflexivity).
  destruct (changePassword_effect "u2" "n3w" bob w_cold u2_is_bob)
    as (d' & w' & Hrun & Hd' & Hpw & Hkeep & _).
  split; [exact u2_is_bob|]. exists d'. rewrite Hrun. cbn [snd].
  split; [exact Hd'|]. split.
  - rewrite Hpw, Hhash. reflexivity.
  - rewrite (Hkeep "email") by discriminate. exact bob_email.
Defined.

Lemma changePassword_then_login_witness :
  (db_users w_cold !! "u2" = Some bob /\
   bob !! "email" = Some (VStr "bob@example.org") /\
   comparePasswords "n3w" (VStr (encryptPassword (VStr "n3w"))) = true) /\
  status_of (fst (login "bob@example.org" "n3w" (snd (changePassword "u2" "n3w" w_cold))))
  = Some 200.
Proof.
  assert (Hp : comparePasswords "n3w" (VStr (encryptPassword (VStr "n3w"))) = true)
    by (vm_compute; reflexivity).
  destruct (changePassword_then_login "u2" "bob@example.org" "n3w" bob w_cold
              u2_is_bob bob_email
              (matching_singleton_sole _ _ _ _ _ bob_listed) Hp)
    as (d' & _ & Hrun).
  split; [split; [exact u2_is_bob | split; [exact bob_email | exact Hp]]|].
  cbn zeta in Hrun. rewrite Hrun. reflexivity.
Defined.

Lemma deleteUserById_then_witness :
  is_Some (db_users w_cold !! "u2") /\
  status_of (fst (deleteUserById "u2" (snd (deleteUserById "u2" w_cold)))) = Some 404.
Proof.
  assert (H : is_Some (db_users w_cold !! "u2")) by (exists bob; exact u2_is_bob).
  destruct (deleteUserById_then "u2" w_cold H) as (_ & _ & Hrun & _).
  split; [exact H|]. rewrite Hrun. reflexivity.
Defined.

Lemma deleteUserById_then_getUsers_witness :
  is_Some (db_users w_warm !! "u2") /\
  exists users,
    fst (getUsers (snd (deleteUserById "u2" w_warm))) =
      Ok (ResBody 200 "Users retrieved successfully!" (Some (DUsers users))) /\
    length users = 1%nat.
Proof.
  assert (H : is_Some (db_users w_warm !! "u2"))
    by (exists bob; vm_compute; reflexivity).
  assert (Hsize : pred (size (db_users w_warm)) = 1%nat) by (vm_compute; reflexivity).
  destruct (deleteUserById_then_getUsers "u2" w_warm H) as (w2 & Hrun & _ & Hlen).
  split; [exact H|]. eexists. rewrite Hrun. cbn [fst].
  split; [reflexivity|]. rewrite Hlen. exact Hsize.
Defined.

Lemma cached_listing_stale_witness :
  (redis w_warm !! "users" = Some ("[]", 3600) /\ "[]" <> "" /\
   JSON_parse "[]" = Some (JArr [])) /\
  fst (getUsers (snd (createUser carol_form w_warm))) = fst (getUsers w_warm) /\
  fst (getUsers (snd (changePassword "u1" "n3w" w_warm))) = fst (getUsers w_warm).
Proof.
  assert (H1 : redis w_warm !! "users" = Some ("[]", 3600)) by (vm_compute; reflexivity).
  assert (H2 : "[]" <> "") by discriminate.
  assert (H3 : JSON_parse "[]" = Some (JArr [])) by (vm_compute; reflexivity).
  destruct (cached_listing_stale "u1" "n3w" carol_form "[]" 3600 (JArr []) w_warm
              H1 H2 H3) as ((_ & Hc) & _ & (_ & Hp)).
  split; [split; [exact H1 | split; [exact H2 | exact H3]]|].
  split; [exact Hc | exact Hp].
Defined.

Lemma getUsers_twice_witness :
  (truthy (fst <$> redis w_empty !! "users") = false /\
   JSON_stringify (push_users (map_to_list (db_users w_empty)) []) <> "" /\
   JSON_parse (JSON_stringify (push_users (map_to_list (db_users w_empty)) []))
   = Some (JArr [])) /\
  fst (getUsers (snd (getUsers w_empty))) =
  Ok (ResBody 200 "Users retrieved successfully!" (Some (DParsed (JArr [])))).
Proof.
  assert (H1 : truthy (fst <$> redis w_empty !! "users") = false)
    by (vm_compute; reflexivity).
  assert (Hs : JSON_stringify (push_users (map_to_list (db_users w_empty)) []) = "[]")
    by (vm_compute; reflexivity).
  assert (H2 : JSON_stringify (push_users (map_to_list (db_users w_empty)) []) <> "")
    by (rewrite Hs; discriminate).
  assert (H3 : JSON_parse (JSON_stringify (push_users (map_to_list (db_users w_empty)) []))
               = Some (JArr [])) by (rewrite Hs; vm_compute; reflexivity).
  destruct (getUsers_twice (JArr []) w_empty H1 H2 H3) as [Hrun _].
  split; [split; [exact H1 | split; [exact H2 | exact H3]]|].
  rewrite Hrun. reflexivity.
Defined.

Lemma getUsers_listing_size_witness :
  truthy (fst <$> redis w_cold !! "users") = false /\
  exists users,
    fst (getUsers w_cold) =
      Ok (ResBody 200 "Users retrieved successfully!" (Some (DUsers users))) /\
    length users = 2%nat.
Proof.
  assert (Hsize : size (db_users w_cold) = 2%nat) by (vm_compute; reflexivity).
  destruct (getUsers_listing_size w_cold cold_misses) as (users & Hrun & _ & Hlen & _).
  split; [exact cold_misses|]. exists users.
  split; [exact Hrun|]. rewrite Hlen. exact Hsize.
Defined.

Lemma getUsers_throws_iff_witness :
  (redis w_garbled !! "users" = Some ("<html>", 3600) /\ "<html>" <> "" /\
   JSON_parse "<html>" = None) /\
  getUsers w_garbled = (Thrown SyntaxError, log (CacheGet "users") w_garbled).
Proof.
  assert (H1 : redis w_garbled !! "users" = Some ("<html>", 3600))
    by (vm_compute; reflexivity).
  assert (H2 : "<html>" <> "") by discriminate.
  assert (H3 : JSON_parse "<html>" = None) by (vm_compute; reflexivity).
  destruct (getUsers_throws_iff w_garbled) as [Hiff Hrun].
  split; [split; [exact H1 | split; [exact H2 | exact H3]]|].
  apply Hrun. apply Hiff. exists "<html>", 3600.
  split; [exact H1 | split; [exact H2 | exact H3]].
Defined.

Lemma changePassword_refuses_other_witness :
  (db_users w_cold !! "u2" = Some bob /\
   bob !! "email" = Some (VStr "bob@example.org") /\
   comparePasswords "builder" (VStr (encryptPassword (VStr "n3w"))) = false) /\
  fst (login "bob@example.org" "builder" (snd (changePassword "u2" "n3w" w_cold))) =
  Ok (ResBody 401 "Unauthorized!" None).
Proof.
  assert (Hp : comparePasswords "builder" (VStr (encryptPassword (VStr "n3w"))) = false)
    by (vm_compute; reflexivity).
  split; [split; [exact u2_is_bob | split; [exact bob_email | exact Hp]]|].
  exact (changePassword_refuses_other "u2" "bob@example.org" "n3w" "builder" bob w_cold
           u2_is_bob bob_email (matching_singleton_sole _ _ _ _ _ bob_listed) Hp).
Defined.

Lemma deleteUserById_frees_email_witness :
  (db_users w_cold !! "u1" = Some alice /\
   get takeover_form "email" = VStr "alice@example.org") /\
  fst (login "alice@example.org" "wonderland" (snd (deleteUserById "u1" w_cold))) =
    Ok (ResBody 401 "Unauthorized" None) /\
  fst (createUser takeover_form (snd (deleteUserById "u1" w_cold))) =
    Ok (ResBody 201 "User created successfully!" None).
Proof.
  assert (Hg : get takeover_form "email" = VStr "alice@example.org")
    by (vm_compute; reflexivity).
  split; [split; [exact u1_is_alice | exact Hg]|].
  exact (deleteUserById_frees_email "u1" "alice@example.org" "wonderland"
           takeover_form alice w_cold
           u1_is_alice (matching_singleton_sole _ _ _ _ _ alice_listed) Hg).
Defined.

(** ** Where the record and the payload differ from the statements as written *)

Import DemoEnvs.

Lemma createUser_written `{C : Collaborators}
    (userData : obj) (w w' : world) (r : IResBody) (id : string) (d : obj) :
  matching "email" (get userData "email") (db_users w) = [] ->
  createUser userData w = (Ok r, w') ->
  In (StoreSet id d) (calls_since w w') ->
  id = auto_id (ids_issued w) /\
  d = new_user userData (firestoreTimestamp_now (clock_reads w))
                        (firestoreTimestamp_now (S (clock_reads w))).
Proof.
  intros Hq Hrun Hin. rewrite createUser_fresh in Hrun by done.
  injection Hrun as _ <-.
  erewrite calls_since_app in Hin by reflexivity.
  destruct Hin as [Hin | [Hin | []]]; [discriminate Hin|].
  by injection Hin as <- <-.
Qed.

Lemma getUserById_payload `{C : Collaborators}
    (userId : string) (w w' : world) (payload : obj) :
  getUserById userId w =
    (Ok (ResBody 200 "User retrieved successfully!" (Some (DUser payload))), w') ->
  payload = with_id userId (formatUserData (db_users w !! userId)).
Proof. rewrite getUserById_run. by intros [= <- _]. Qed.


(** C10, as written, fails for an account created from a form that has an
    [id] field: the projection keeps that field, and in the payload it
    replaces the supplied id. *)
Lemma getUserById_own_id_wins :
  status_of (fst (createUser imported_form w_cold)) = Some 201 /\
  auto_id (ids_issued w_cold) = "auto" /\
  ~ getUserById_as_stated "auto" w_imported.
Proof.
  split; [vm_compute; reflexivity|]. split; [vm_compute; reflexivity|].
  intros (payload & w' & Hrun & Hid).
  rewrite (getUserById_payload _ _ _ _ Hrun) in Hid.
  assert (Hinner : with_id "auto" (formatUserData (db_users w_imported !! "auto")) !! "id"
                   = Some (VStr "inner")) by (vm_compute; reflexivity).
  rewrite Hinner in Hid. discriminate Hid.
Qed.
